(** * STK500v2 programmer protocol (Cura/avr_isp/stk500v2.py)

    A shallow embedding of the [Stk500v2] class: the frame that [sendMessage]
    sets out to build, the byte-at-a-time receive automaton of [recvMessage],
    the connection handshake and the page-wise write and verify loops.

    Conventions of the embedding.
    - The package is Python 3 code ([import winreg], [import urllib.request],
      [print(...)]), and its operations are given their Python 3 meaning.
      Python integers are [Z].  A [bytes] object is the [list Z] of its
      elements: iterating over it, or indexing it, yields ints.  [ord] wants
      a string of length one and raises TypeError on an int.  [/] between
      two integers is the true division and yields a float, which [range]
      refuses with TypeError.
    - A method is a function from the state before the call to an outcome
      and the state after it; a raised exception keeps every mutation done
      before the [raise], as in Python.
    - The serial port is outside the program.  A [Serial] value carries the
      bytes already received ([rx]) and a script of the reactions of the far
      end to the successive writes. *)

From Stdlib Require Import ZArith List Lia Bool Ascii String.
Import ListNotations.
Open Scope Z_scope.

(** ** Exceptions *)

(** The messages of [ispBase.IspError] in the [raise] statements of this
    file. *)
Inductive IspError : Type :=
| FailedToOpenSerialPort
| UnexpectedErrorWhileConnecting (port : string)
| FailedToEnterProgrammingMode
| FailedToLeaveProgrammingMode
| VerifyErrorAt (offset : Z)
| SerialSendTimeout
| Timeout.

Inductive exn : Type :=
| IspErr (e : IspError)
| StructError
| AttributeError
| ZeroDivisionError
| IndexError
| TypeError.

Inductive result (A : Type) : Type :=
| Ok (a : A)
| Raise (e : exn).
Arguments Ok {A} a.
Arguments Raise {A} e.

(** ** Python values *)

(** A number: an int, or a float.  The only floats of the file are the
    quotients of lines 77 and 91; their value is not tracked. *)
Inductive number : Type :=
| Int (n : Z)
| Float.

Definition num_add (x y : number) : number :=
  match x, y with
  | Int a, Int b => Int (a + b)
  | _, _ => Float
  end.

Definition num_mul (x y : number) : number :=
  match x, y with
  | Int a, Int b => Int (a * b)
  | _, _ => Float
  end.

Definition len {A} (l : list A) : Z := Z.of_nat (List.length l).

(** [l[a:b]] with Python's treatment of negative and oversized bounds. *)
Definition slice_bound (n i : Z) : Z :=
  if i <? 0 then Z.max 0 (i + n) else Z.min i n.

Definition slice {A} (l : list A) (a b : Z) : list A :=
  let a' := slice_bound (len l) a in
  let b' := slice_bound (len l) b in
  firstn (Z.to_nat (b' - a')) (skipn (Z.to_nat a') l).

(** [l[i]] for [0 <= i]; [None] stands for IndexError. *)
Definition index {A} (l : list A) (i : Z) : option A :=
  if i <? 0 then None else nth_error l (Z.to_nat i).

Definition list_eqb (a b : list Z) : bool :=
  if list_eq_dec Z.eq_dec a b then true else false.

(** [ord(c)] for an element [c] of a [bytes] object: an int, where [ord]
    wants a string of length one. *)
Definition ord (c : Z) : result Z := Raise TypeError.

(** ** struct.pack *)

Definition pack_B (c : Z) : result (list Z) :=
  if (0 <=? c) && (c <=? 255) then Ok [c] else Raise StructError.

Definition pack_H (n : Z) : result (list Z) :=
  if (0 <=? n) && (n <=? 65535)
  then Ok [Z.shiftr n 8; Z.land n 255] else Raise StructError.

(** [struct.pack(">BBHB", a, b, h, c)] *)
Definition pack_BBHB (a b h c : Z) : result (list Z) :=
  match pack_B a, pack_B b, pack_H h, pack_B c with
  | Ok x, Ok y, Ok z, Ok w => Ok (x ++ y ++ z ++ w)
  | _, _, _, _ => Raise StructError
  end.

(** [for c in data: message += struct.pack(">B", c)] *)
Fixpoint pack_data (message data : list Z) : result (list Z) :=
  match data with
  | [] => Ok message
  | c :: data' =>
      match pack_B c with
      | Ok s => pack_data (message ++ s) data'
      | Raise e => Raise e
      end
  end.

(** [for c in message: checksum ^= ord(c)], entered with the value of
    [checksum] so far. *)
Fixpoint checksum_loop (checksum : Z) (message : list Z) : result Z :=
  match message with
  | [] => Ok checksum
  | c :: message' =>
      match ord c with
      | Ok v => checksum_loop (Z.lxor checksum v) message'
      | Raise e => Raise e
      end
  end.

(** Lines 101-107 of [sendMessage], for the sequence number [seq] and the
    payload [data]: the header and the payload are packed, the checksum loop
    runs over the packed bytes, and the checksum is appended. *)
Definition build_message (seq : Z) (data : list Z) : result (list Z) :=
  match pack_BBHB 0x1B seq (len data) 0x0E with
  | Raise e => Raise e
  | Ok header =>
      match pack_data header data with
      | Raise e => Raise e
      | Ok message =>
          match checksum_loop 0 message with
          | Raise e => Raise e
          | Ok checksum =>
              match pack_B checksum with
              | Raise e => Raise e
              | Ok s => Ok (message ++ s)
              end
          end
      end
  end.

(** ** The receive automaton *)

Inductive state : Type :=
| Start | GetSeq | MsgSize1 | MsgSize2 | Token | Data | Checksum.

(** The loop of [recvMessage] over the bytes that [serial.read()] will
    deliver: one iteration per byte; an exhausted input is the read that
    returns the empty string after the timeout.  The result comes with the
    bytes left unread. *)
Fixpoint recvLoop (st : state) (checksum msgSize : Z) (data : list Z)
  (rx : list Z) : result (list Z) * list Z :=
  match rx with
  | [] => (Raise (IspErr Timeout), [])
  | b :: rx' =>
      let checksum := Z.lxor checksum b in
      match st with
      | Start =>
          if b =? 0x1B
          then recvLoop GetSeq 0x1B msgSize data rx'
          else recvLoop Start checksum msgSize data rx'
      | GetSeq => recvLoop MsgSize1 checksum msgSize data rx'
      | MsgSize1 => recvLoop MsgSize2 checksum (Z.shiftl b 8) data rx'
      | MsgSize2 => recvLoop Token checksum (Z.lor msgSize b) data rx'
      | Token =>
          if negb (b =? 0x0E)
          then recvLoop Start checksum msgSize data rx'
          else recvLoop Data checksum msgSize [] rx'
      | Data =>
          let data := data ++ [b] in
          if len data =? msgSize
          then recvLoop Checksum checksum msgSize data rx'
          else recvLoop Data checksum msgSize data rx'
      | Checksum =>
          if negb (checksum =? 0)
          then recvLoop Start checksum msgSize data rx'
          else (Ok data, rx')
      end
  end.

(** [recvMessage] on a byte source: [state = 'Start'; checksum = 0];
    [msgSize] and [data] are not bound yet, and are assigned before the
    automaton reads them. *)
Definition decode (rx : list Z) : result (list Z) * list Z :=
  recvLoop Start 0 0 [] rx.

(** ** The serial port and the programmer object *)

(** What the far end does on one [serial.write]: the write times out, or it
    goes through and these bytes come back (none at all for a silent
    device). *)
Inductive reaction : Type :=
| WriteTimeout
| Reply (bytes : list Z).

(** An open [serial.Serial].  [rx] holds the bytes received and not read
    yet; [script] the reactions to the writes still to come, an exhausted
    script being a device that accepts the bytes and stays silent. *)
Record Serial : Type := mkSerial {
  port : string;
  baudrate : Z;
  timeout : Z;
  writeTimeout : Z;
  rx : list Z;
  script : list reaction
}.

(** What the program does to the outside, in the order it does it. *)
Inductive event : Type :=
| EvOpen (name : string) (speed : Z)
| EvClose (name : string)
| EvSetDTR (level : Z)
| EvSleep (milliseconds : Z)
| EvFlushInput
| EvFlushOutput
| EvWrite (message : list Z)
| EvProgress (step total : number).

(** [self.chip]: the descriptor that [ispBase.programChip] stores before it
    calls [writeFlash] and [verifyFlash]. *)
Record Chip : Type := mkChip {
  pageSize : Z;
  pageCount : Z
}.

(** The attributes of a [Stk500v2] instance, with the trace of the effects
    performed so far (oldest first).  [progressCallback] records whether a
    callback is installed; calling it is the event [EvProgress]. *)
Record Stk500v2 : Type := mkStk500v2 {
  serial : option Serial;
  seq : Z;
  lastAddr : Z;
  progressCallback : bool;
  chip : Chip;
  trace : list event
}.

(** [__init__] *)
Definition init (c : Chip) : Stk500v2 :=
  mkStk500v2 None 1 (-1) false c [].

Definition set_serial (v : option Serial) (self : Stk500v2) : Stk500v2 :=
  mkStk500v2 v (seq self) (lastAddr self) (progressCallback self)
    (chip self) (trace self).

Definition set_seq (v : Z) (self : Stk500v2) : Stk500v2 :=
  mkStk500v2 (serial self) v (lastAddr self) (progressCallback self)
    (chip self) (trace self).

Definition log (e : event) (self : Stk500v2) : Stk500v2 :=
  mkStk500v2 (serial self) (seq self) (lastAddr self) (progressCallback self)
    (chip self) (trace self ++ [e]).

Definition set_rx (v : list Z) (s : Serial) : Serial :=
  mkSerial (port s) (baudrate s) (timeout s) (writeTimeout s) v (script s).

Definition set_script (v : list reaction) (s : Serial) : Serial :=
  mkSerial (port s) (baudrate s) (timeout s) (writeTimeout s) (rx s) v.

Definition set_timeout (v : Z) (s : Serial) : Serial :=
  mkSerial (port s) (baudrate s) v (writeTimeout s) (rx s) (script s).

(** Methods: state in, outcome and state out. *)
Definition M (A : Type) : Type := Stk500v2 -> result A * Stk500v2.

Definition ret {A} (a : A) : M A := fun self => (Ok a, self).

Definition raise {A} (e : exn) : M A := fun self => (Raise e, self).

Definition bind {A B} (m : M A) (k : A -> M B) : M B :=
  fun self =>
    match m self with
    | (Ok a, self') => k a self'
    | (Raise e, self') => (Raise e, self')
    end.

Notation "x <- m ;; k" := (bind m (fun x => k))
  (at level 61, m at next level, right associativity).
Notation "m ;; k" := (bind m (fun _ => k))
  (at level 61, right associativity).

Definition get : M Stk500v2 := fun self => (Ok self, self).

Definition modify (f : Stk500v2 -> Stk500v2) : M unit :=
  fun self => (Ok tt, f self).

(** A call [self.serial.m(...)]: AttributeError when [self.serial] is
    [None]. *)
Definition on_serial (ev : list event) (f : Serial -> Serial) : M unit :=
  fun self =>
    match serial self with
    | None => (Raise AttributeError, self)
    | Some s =>
        (Ok tt, mkStk500v2 (Some (f s)) (seq self) (lastAddr self)
                  (progressCallback self) (chip self) (trace self ++ ev))
    end.

(** [for x in l: body(x)] *)
Fixpoint for_each {A} (l : list A) (body : A -> M unit) : M unit :=
  match l with
  | [] => ret tt
  | x :: l' => body x ;; for_each l' body
  end.

(** [range(a, b)] on ints. *)
Definition range (a b : Z) : list Z :=
  map (fun k => a + Z.of_nat k) (List.seq 0 (Z.to_nat (b - a))).

(** [range(0, stop)]: [stop] has to be an int. *)
Definition range0 (stop : number) : M (list Z) :=
  match stop with
  | Int n => ret (range 0 n)
  | Float => raise TypeError
  end.

(** [a / b] on two ints: the true division. *)
Definition truediv (a b : Z) : M number :=
  if b =? 0 then raise ZeroDivisionError else ret Float.

(** [serial.write(message); serial.flush()]: whether the bytes went out, and
    the port afterwards, the answer of the far end queued for reading. *)
Definition serial_write (s : Serial) (message : list Z) : bool * Serial :=
  match script s with
  | [] => (true, s)
  | WriteTimeout :: k => (false, set_script k s)
  | Reply bytes :: k => (true, set_rx (rx s ++ bytes) (set_script k s))
  end.

(** [recvMessage]: the automaton run on what the port has to deliver; the
    bytes it consumed are gone from the port whether it returns or raises. *)
Definition recvMessage : M (list Z) :=
  fun self =>
    match serial self with
    | None => (Raise AttributeError, self)
    | Some s =>
        let (r, rx') := decode (rx s) in
        (r, set_serial (Some (set_rx rx' s)) self)
    end.

(** Lines 108-114 of [sendMessage], with the message at hand: write it,
    and if the write went through increment [seq] and wait for one reply.
    An exception of the write sends Python to the [except] clause, whose
    expression [Serial.SerialTimeoutException] names an attribute that the
    class [Serial] does not have: AttributeError, before the increment. *)
Definition transmit (message : list Z) : M (list Z) :=
  fun self =>
    match serial self with
    | None => (Raise AttributeError, self)
    | Some s =>
        let (sent, s') := serial_write s message in
        let self := set_serial (Some s') self in
        if sent then
          let self := log (EvWrite message) self in
          let self := set_seq (Z.land (seq self + 1) 0xFF) self in
          recvMessage self
        else (Raise AttributeError, self)
    end.

(** [sendMessage]: build the message, then transmit it. *)
Definition sendMessage (data : list Z) : M (list Z) :=
  fun self =>
    match build_message (seq self) data with
    | Raise e => (Raise e, self)
    | Ok message => transmit message self
    end.

Definition close : M unit :=
  fun self =>
    match serial self with
    | Some s => (Ok tt, set_serial None (log (EvClose (port s)) self))
    | None => (Ok tt, self)
    end.

(** The outcome of the constructor [Serial(port, speed, ...)]. *)
Inductive open_outcome : Type :=
| Opened (pending : list Z) (far_end : list reaction)
| OpenSerialException
| OpenOtherException.

Definition enter_progmode : list Z :=
  [0x10; 0xc8; 0x64; 0x19; 0x20; 0x00; 0x53; 0x03; 0xac; 0x53; 0x00; 0x00].

(** Lines 40-43 of [connect], with the reply [r] to the
    enter-programming-mode command at hand. *)
Definition enter_check (r : list Z) : M unit :=
  if negb (list_eqb r [0x10; 0x00])
  then close ;; raise (IspErr FailedToEnterProgrammingMode)
  else on_serial [] (set_timeout 5).

Section Connect.

(** The operating system's answer to opening a port. *)
Variable os_open : string -> Z -> open_outcome.

Definition open_serial (name : string) (speed : Z) : M unit :=
  fun self =>
    match os_open name speed with
    | Opened pending far_end =>
        (Ok tt,
         set_serial (Some (mkSerial name speed 1 10000 pending far_end))
           (log (EvOpen name speed) self))
    | OpenSerialException => (Raise (IspErr FailedToOpenSerialPort), self)
    | OpenOtherException =>
        (Raise (IspErr (UnexpectedErrorWhileConnecting name)), self)
    end.

Definition connect (name : string) (speed : Z) : M unit :=
  self <- get ;;
  (match serial self with Some _ => close | None => ret tt end) ;;
  open_serial name speed ;;
  modify (set_seq 1) ;;
  on_serial [EvSetDTR 1] (fun s => s) ;;
  modify (log (EvSleep 100)) ;;
  on_serial [EvSetDTR 0] (fun s => s) ;;
  modify (log (EvSleep 200)) ;;
  on_serial [EvFlushInput] (set_rx []) ;;
  on_serial [EvFlushOutput] (fun s => s) ;;
  sendMessage [1] ;;
  r <- sendMessage enter_progmode ;;
  enter_check r.

End Connect.

(** Lines 54-58 of [leaveISP], with the reply [r] to the leave command at
    hand: the port is handed back, still open. *)
Definition leave_check (r : list Z) : M (option Serial) :=
  if negb (list_eqb r [0x11; 0x00])
  then raise (IspErr FailedToLeaveProgrammingMode)
  else
    self <- get ;;
    let ret_ := serial self in
    modify (set_serial None) ;;
    ret ret_.

Definition leaveISP : M (option Serial) :=
  self <- get ;;
  match serial self with
  | Some _ =>
      r <- sendMessage [0x11] ;;
      leave_check r
  | None => ret None
  end.

Definition isConnected (self : Stk500v2) : bool :=
  match serial self with Some _ => true | None => false end.

Definition sendISP (data : list Z) : M (list Z) :=
  match index data 0, index data 1, index data 2, index data 3 with
  | Some d0, Some d1, Some d2, Some d3 =>
      recv <- sendMessage [0x1D; 4; 4; 0; d0; d1; d2; d3] ;;
      ret (slice recv 2 6)
  | _, _, _, _ => raise IndexError
  end.

Definition progress (step total : number) : M unit :=
  fun self =>
    if progressCallback self
    then (Ok tt, log (EvProgress step total) self)
    else (Ok tt, self).

Definition load_address (flashSize : Z) : list Z :=
  if flashSize >? 0xFFFF
  then [0x06; 0x80; 0x00; 0x00; 0x00]
  else [0x06; 0x00; 0x00; 0x00; 0x00].

(** The payload of the program-page command of chunk [i]. *)
Definition program_page (pageSize : Z) (flashData : list Z) (i : Z) : list Z :=
  [0x13; Z.shiftr pageSize 8; Z.land pageSize 0xFF;
   0xc1; 0x0a; 0x40; 0x4c; 0x20; 0x00; 0x00]
  ++ slice flashData (i * pageSize) (i * pageSize + pageSize).

(** Lines 77-81 of [writeFlash]: the number of pages, and the loop over
    them. *)
Definition program_pages (pageSize : Z) (flashData : list Z) : M unit :=
  loadCount <- truediv (len flashData + pageSize - 1) pageSize ;;
  pages <- range0 loadCount ;;
  for_each pages (fun i =>
    sendMessage (program_page pageSize flashData i) ;;
    progress (Int (i + 1)) (num_mul loadCount (Int 2))).

Definition writeFlash (flashData : list Z) : M unit :=
  self <- get ;;
  let pageSize := pageSize (chip self) * 2 in
  let flashSize := pageSize * pageCount (chip self) in
  sendMessage (load_address flashSize) ;;
  program_pages pageSize flashData.

(** The comparison at position [j] of block [i]. *)
Definition verify_byte (flashData recv : list Z) (i j : Z) : M unit :=
  if i * 0x100 + j <? len flashData then
    match index flashData (i * 0x100 + j), index recv j with
    | Some a, Some b =>
        if negb (a =? b)
        then raise (IspErr (VerifyErrorAt (i * 0x100 + j)))
        else ret tt
    | _, _ => raise IndexError
    end
  else ret tt.

(** Lines 96-98 of [verifyFlash]: the inner loop, over the data [recv] read
    back for block [i]. *)
Definition compare_block (flashData recv : list Z) (i : Z) : M unit :=
  for_each (range 0 0x100) (verify_byte flashData recv i).

(** The body of the outer loop of [verifyFlash], for block [i]. *)
Definition verify_block (flashData : list Z) (loadCount : number) (i : Z)
  : M unit :=
  r <- sendMessage [0x14; 0x01; 0x00; 0x20] ;;
  let recv := slice r 2 0x102 in
  progress (num_add (num_add loadCount (Int i)) (Int 1))
    (num_mul loadCount (Int 2)) ;;
  compare_block flashData recv i.

(** Lines 91-98 of [verifyFlash]: the number of blocks, and the loop over
    them. *)
Definition read_blocks (flashData : list Z) : M unit :=
  loadCount <- truediv (len flashData + 0xFF) 0x100 ;;
  blocks <- range0 loadCount ;;
  for_each blocks (verify_block flashData loadCount).

Definition verifyFlash (flashData : list Z) : M unit :=
  self <- get ;;
  let flashSize := pageSize (chip self) * 2 * pageCount (chip self) in
  sendMessage (load_address flashSize) ;;
  read_blocks flashData.

(** ** Vocabulary of the statements *)

Definition is_byte (c : Z) : Prop := 0 <= c <= 255.

(** The XOR of the bytes of a message. *)
Definition xor_all (message : list Z) : Z := fold_left Z.lxor message 0.

(** The five bytes in front of the payload. *)
Definition header (seq n : Z) : list Z :=
  [0x1B; seq; Z.shiftr n 8; Z.land n 255; 0x0E].

(** A frame on the wire: the start marker, a sequence number, the size of
    the payload (high byte first), the token, the payload, and a last byte
    equal to the XOR of all the bytes in front of it.  It is the layout of
    the frames of the far end, which [recvMessage] reads. *)
Definition frame (seq : Z) (data : list Z) : list Z :=
  (header seq (len data) ++ data) ++ [xor_all (header seq (len data) ++ data)].

(** [message] is the frame of the payload [data] with the sequence number
    [seq], every field holding a value that fits it. *)
Definition wire_frame (seq : Z) (data message : list Z) : Prop :=
  is_byte seq /\ len data <= 65535 /\ Forall is_byte data /\
  message = frame seq data.

(** Damage done to a frame on the wire. *)
Definition set_checksum (frame : list Z) (c : Z) : list Z :=
  removelast frame ++ [c].

Definition set_token (frame : list Z) (t : Z) : list Z :=
  firstn 4 frame ++ [t] ++ skipn 5 frame.

(** Encoding with lines 101-107, then decoding the result with the automaton
    of [recvMessage]. *)
Definition roundtrip (seq : Z) (data : list Z) : result (list Z) :=
  match build_message seq data with
  | Ok message => fst (decode message)
  | Raise e => Raise e
  end.

(** The messages written to the port, in order. *)
Fixpoint writes (tr : list event) : list (list Z) :=
  match tr with
  | [] => []
  | EvWrite message :: tr' => message :: writes tr'
  | _ :: tr' => writes tr'
  end.

(** What [connect] does to the port it held, if any. *)
Definition closing (self : Stk500v2) : list event :=
  match serial self with
  | Some s => [EvClose (port s)]
  | None => []
  end.



(** What the automaton has read of the frame in progress when it is in
    state [st] with the variables [cs], [ms], [d]: the bytes [part] since the
    start marker, their XOR, and the size announced so far. *)
Definition frame_prefix (st : state) (cs ms : Z) (d part : list Z) : Prop :=
  match st with
  | Start => True
  | GetSeq => part = [0x1B] /\ cs = 0x1B
  | MsgSize1 => exists sq, part = [0x1B; sq] /\ cs = xor_all part
  | MsgSize2 =>
      exists sq hi,
        part = [0x1B; sq; hi] /\ cs = xor_all part /\ ms = Z.shiftl hi 8
  | Token =>
      exists sq hi lo,
        part = [0x1B; sq; hi; lo] /\ cs = xor_all part /\
        ms = Z.lor (Z.shiftl hi 8) lo
  | Data =>
      exists sq hi lo,
        part = [0x1B; sq; hi; lo; 0x0E] ++ d /\ cs = xor_all part /\
        ms = Z.lor (Z.shiftl hi 8) lo
  | Checksum =>
      exists sq hi lo,
        part = [0x1B; sq; hi; lo; 0x0E] ++ d /\ cs = xor_all part /\
        ms = Z.lor (Z.shiftl hi 8) lo /\ len d = ms /\ d <> []
  end.

(** [m] keeps the property [I] of the instance, whatever its outcome. *)
Definition keeps {A} (I : Stk500v2 -> Prop) (m : M A) : Prop :=
  forall self, I self -> I (snd (m self)).

Definition seq_ok (self : Stk500v2) : Prop := is_byte (seq self).

(** The port held, if any, with the bytes and the script left aside. *)
Definition held (self : Stk500v2) : option (string * Z * Z * Z) :=
  match serial self with
  | Some s => Some (port s, baudrate s, timeout s, writeTimeout s)
  | None => None
  end.

(** The effects of the data path: writes and progress reports. *)
Definition io_event (e : event) : Prop :=
  match e with
  | EvWrite _ | EvProgress _ _ => True
  | _ => False
  end.

(** [m] neither opens, closes nor reconfigures the port, and does nothing
    to the outside but write and report progress. *)
Definition port_untouched {A} (m : M A) : Prop :=
  forall self,
    held (snd (m self)) = held self /\
    exists t, trace (snd (m self)) = trace self ++ t /\ Forall io_event t.

(** The instance when [connect] has opened the port, reset the controller
    and flushed the buffers: what was pending is gone and the sequence
    number is 1. *)
Definition after_reset (name : string) (speed : Z) (far_end : list reaction)
  (self : Stk500v2) : Stk500v2 :=
  mkStk500v2 (Some (mkSerial name speed 1 10000 [] far_end)) 1
    (lastAddr self) (progressCallback self) (chip self)
    (trace self ++ closing self
     ++ [EvOpen name speed; EvSetDTR 1; EvSleep 100; EvSetDTR 0;
         EvSleep 200; EvFlushInput; EvFlushOutput]).

(** The instance when [connect] has closed the port it held, if any, and
    could not open the new one. *)
Definition after_close (self : Stk500v2) : Stk500v2 :=
  mkStk500v2 None (seq self) (lastAddr self) (progressCallback self)
    (chip self) (trace self ++ closing self).

(** What [connect] does from [after_reset] on: lines 39-43. *)
Definition handshake : M unit :=
  sendMessage [1] ;;
  r <- sendMessage enter_progmode ;;
  enter_check r.

(** ** The callers of the class and the helper modules *)

Section RunProgrammer.

(** [runProgrammer] (lines 169-174) on a new instance.  [intelHex.readHex]
    and [ispBase.IspBase.programChip] are defined in other modules: the
    outcome of reading the file and the programming method are taken as
    they come. *)
Variable os_open : string -> Z -> open_outcome.
Variable readHex : string -> result (list Z).
Variable programChip : list Z -> M unit.

Definition runProgrammer (c : Chip) (name filename : string)
  : result unit * Stk500v2 :=
  (connect os_open name 115200 ;;
   flashData <- (fun programmer => (readHex filename, programmer)) ;;
   programChip flashData ;;
   close) (init c).

End RunProgrammer.

(** ['USBSER' in name]: substring test. *)
Fixpoint contains (needle hay : string) : bool :=
  match hay with
  | EmptyString => String.prefix needle EmptyString
  | String _ hay' => String.prefix needle hay || contains needle hay'
  end.

(** The loop of [portList] over the values of the registry key, each a
    name and its data, numbered by [winreg.EnumValue] in the order of the
    list; past the last one [EnumValue] raises and the loop returns.  The
    fuel bounds the iterations; [None] is fuel run out. *)
Fixpoint portList_loop (fuel : nat) (key : list (string * string)) (i : nat)
  (ret : list string) : option (list string) :=
  match fuel with
  | O => None
  | S fuel' =>
      match nth_error key i with
      | None => Some ret
      | Some values =>
          portList_loop fuel' key (S i)
            (if contains "USBSER" (fst values)
             then ret ++ [snd values] else ret)
      end
  end.

(** [portList] once [winreg.OpenKey] has returned the key (an exception of
    [OpenKey] is not caught and ends the call). *)
Definition portList (key : list (string * string)) : option (list string) :=
  portList_loop (S (List.length key)) key 0 [].

(** myversion.py.  The outcomes of [isLatest]. *)
Inductive version_outcome : Type :=
| Answer (latest : bool)
| KeyError
| UnicodeDecodeError.

Section MyVersion.

(** [bytes.decode('utf-8')], [None] for bytes that are no UTF-8. *)
Variable utf8 : list Z -> option string.

(** [isLatest] with the module's [url_handle] ([None], or the bytes of the
    response that have not been read yet) and the value of the environment
    variable CURABYDAGO_RELEASE_VERSION, if set.  [url_handle.read()] takes
    all that is left of the response. *)
Definition isLatest (url_handle : option (list Z))
  (release_version : option string)
  : version_outcome * option (list Z) :=
  match url_handle with
  | None => (Answer true, None)
  | Some body =>
      match utf8 body with
      | None => (UnicodeDecodeError, Some [])
      | Some official_version =>
          match release_version with
          | None => (KeyError, Some [])
          | Some installed =>
              (Answer (String.eqb official_version installed), Some [])
          end
      end
  end.

End MyVersion.

(** explorer.py.  A call of [subprocess.Popen], with a command line or
    with a list of arguments. *)
Inductive popen : Type :=
| PopenShell (command : string)
| PopenArgs (args : list string).

Definition quoted (s : string) : string :=
  String (ascii_of_nat 34) (String.append s (String (ascii_of_nat 34) EmptyString)).

Definition hasExplorer : bool := true.

Section Explorer.

(** [os.path.split(filename)[0]] *)
Variable split_head : string -> string.

Definition openExplorer (platform filename : string) : list popen :=
  (if String.eqb platform "win32" || String.eqb platform "cygwin"
   then [PopenShell (String.append "explorer /select," (quoted filename))]
   else [])
  ++ (if String.eqb platform "darwin"
      then [PopenArgs ["open"; "-R"; filename]%string] else [])
  ++ (if String.prefix "linux" platform
      then [PopenArgs ["xdg-open"%string; split_head filename]] else []).

Definition openExplorerPath (platform filename : string) : list popen :=
  (if String.eqb platform "win32" || String.eqb platform "cygwin"
   then [PopenShell (String.append "explorer " (quoted filename))]
   else [])
  ++ (if String.eqb platform "darwin"
      then [PopenArgs ["open"%string; filename]] else [])
  ++ (if String.prefix "linux" platform
      then [PopenArgs ["xdg-open"%string; filename]] else []).

End Explorer.

(** * Properties *)

(** ** Packing and the checksum loop *)

Lemma pack_B_Ok c s : pack_B c = Ok s <-> is_byte c /\ s = [c].
Proof.
  unfold pack_B, is_byte.
  destruct (0 <=? c) eqn:H0; destruct (c <=? 255) eqn:H1; simpl;
    split; try discriminate; try (intros [? ?]; lia).
  - intros E. inversion E. split; [lia | reflexivity].
  - intros [_ ->]. reflexivity.
Qed.

Lemma pack_B_byte c : is_byte c -> pack_B c = Ok [c].
Proof. intros H. apply pack_B_Ok. auto. Qed.

Lemma pack_data_Ok data : forall message out,
  pack_data message data = Ok out <->
  Forall is_byte data /\ out = message ++ data.
Proof.
  induction data as [|c data IH]; intros message out; simpl.
  - rewrite app_nil_r. split.
    + intros E. inversion E. auto.
    + intros [_ ->]. reflexivity.
  - destruct (pack_B c) as [s|e] eqn:Hc.
    + apply pack_B_Ok in Hc. destruct Hc as [Hb ->].
      rewrite IH, <- app_assoc. simpl. split.
      * intros [Hd ->]. auto.
      * intros [Hd ->]. inversion Hd. auto.
    + split; [discriminate|]. intros [Hd _]. inversion Hd as [|? ? Hb _].
      rewrite (pack_B_byte _ Hb) in Hc. discriminate.
Qed.

Lemma pack_data_raises data : forall message e,
  pack_data message data = Raise e -> e = StructError.
Proof.
  induction data as [|c data IH]; intros message e; cbn [pack_data];
    [discriminate|].
  destruct (pack_B c) as [s|e'] eqn:Hc; [apply IH|].
  unfold pack_B in Hc. destruct (_ && _); [discriminate|]. congruence.
Qed.

(** The checksum loop stops at the first byte it is given. *)
Lemma checksum_loop_raises checksum c message :
  checksum_loop checksum (c :: message) = Raise TypeError.
Proof. reflexivity. Qed.

(** Lines 101-107 never hand over a message: a value that does not fit its
    field stops the packing, and otherwise the checksum loop stops at the
    start marker. *)
Lemma build_message_raises sq data :
  exists e,
    build_message sq data = Raise e /\ (e = StructError \/ e = TypeError).
Proof.
  unfold build_message, pack_BBHB.
  change (pack_B 27) with (Ok (A:=list Z) [27]).
  change (pack_B 14) with (Ok (A:=list Z) [14]).
  destruct (pack_B sq) as [y|];
    [|exists StructError; split; [reflexivity | left; reflexivity]].
  destruct (pack_H (len data)) as [z|];
    [|exists StructError; split; [reflexivity | left; reflexivity]].
  cbn [app].
  destruct (pack_data _ data) as [m|e] eqn:Hm.
  - apply pack_data_Ok in Hm. destruct Hm as [_ ->].
    exists TypeError. split; [reflexivity | right; reflexivity].
  - apply pack_data_raises in Hm. subst e.
    exists StructError. split; [reflexivity | left; reflexivity].
Qed.

Lemma build_message_TypeError sq data :
  is_byte sq -> Forall is_byte data -> len data <= 65535 ->
  build_message sq data = Raise TypeError.
Proof.
  intros Hs Hd Hn.
  assert (Hn0 : 0 <= len data) by (unfold len; lia).
  unfold build_message, pack_BBHB.
  rewrite (pack_B_byte sq Hs).
  change (pack_B 27) with (Ok (A:=list Z) [27]).
  change (pack_B 14) with (Ok (A:=list Z) [14]).
  unfold pack_H.
  replace ((0 <=? len data) && (len data <=? 65535)) with true
    by (symmetry; apply andb_true_iff; split; apply Z.leb_le; lia).
  cbn [app].
  destruct (pack_data _ data) as [m|e] eqn:Hm.
  - apply pack_data_Ok in Hm. destruct Hm as [_ ->]. reflexivity.
  - exfalso.
    assert (H : exists o, pack_data [27; sq; Z.shiftr (len data) 8;
               Z.land (len data) 255; 14] data = Ok o).
    { eexists. apply pack_data_Ok. split; [exact Hd | reflexivity]. }
    destruct H as [o Ho]. rewrite Ho in Hm. discriminate.
Qed.

Lemma build_message_StructError sq data :
  ~ is_byte sq \/ Exists (fun c => ~ is_byte c) data \/ 65535 < len data ->
  build_message sq data = Raise StructError.
Proof.
  intros Hbad.
  destruct (build_message_raises sq data) as (e & He & [-> | ->]);
    [exact He|].
  exfalso. revert He. unfold build_message, pack_BBHB.
  change (pack_B 27) with (Ok (A:=list Z) [27]).
  change (pack_B 14) with (Ok (A:=list Z) [14]).
  destruct (pack_B sq) as [y|] eqn:Hy; [|discriminate].
  destruct (pack_H (len data)) as [z|] eqn:Hz; [|discriminate].
  destruct (pack_data _ data) as [m|e] eqn:Hm;
    [|apply pack_data_raises in Hm; subst e; discriminate].
  intros _.
  apply pack_B_Ok in Hy. destruct Hy as [Hs _].
  apply pack_data_Ok in Hm. destruct Hm as [Hd _].
  unfold pack_H in Hz.
  destruct ((0 <=? len data) && (len data <=? 65535)) eqn:Hn;
    [|discriminate].
  apply andb_true_iff in Hn. destruct Hn as [_ Hn1]. apply Z.leb_le in Hn1.
  destruct Hbad as [H|[H|H]]; [auto | | lia].
  apply Exists_exists in H. destruct H as (c & Hin & Hc).
  rewrite Forall_forall in Hd. auto.
Qed.

(** ** The receive automaton on well-formed and damaged frames *)

Lemma size_join n :
  0 <= n -> Z.lor (Z.shiftl (Z.shiftr n 8) 8) (Z.land n 255) = n.
Proof.
  intros Hn. change 255 with (Z.ones 8).
  rewrite <- Z.ldiff_ones_r by lia. apply Z.lor_ldiff_and.
Qed.

Lemma recvLoop_header sq hi lo cs ms d rest :
  recvLoop Start cs ms d ([0x1B; sq; hi; lo; 0x0E] ++ rest) =
  recvLoop Data (fold_left Z.lxor [sq; hi; lo; 0x0E] 0x1B)
    (Z.lor (Z.shiftl hi 8) lo) [] rest.
Proof. reflexivity. Qed.

(** In [Data] the automaton takes as many bytes as announced, provided at
    least one is. *)
Lemma recvLoop_data payload : forall acc cs ms rest,
  payload <> [] -> len (acc ++ payload) = ms ->
  recvLoop Data cs ms acc (payload ++ rest) =
  recvLoop Checksum (fold_left Z.lxor payload cs) ms (acc ++ payload) rest.
Proof.
  induction payload as [|b payload IH]; intros acc cs ms rest Hne Hlen;
    [congruence|].
  cbn [app recvLoop fold_left].
  destruct payload as [|b' payload].
  - rewrite Hlen, Z.eqb_refl. reflexivity.
  - replace (len (acc ++ [b]) =? ms) with false.
    + rewrite (IH (acc ++ [b]) _ ms rest); [|discriminate|].
      * rewrite <- app_assoc. reflexivity.
      * rewrite <- app_assoc. exact Hlen.
    + symmetry. apply Z.eqb_neq. subst ms. unfold len.
      rewrite !length_app. simpl. lia.
Qed.

(** Bytes other than the start marker are dropped in [Start]. *)
Lemma recvLoop_noise noise : forall cs ms d rest,
  Forall (fun b => b <> 0x1B) noise ->
  recvLoop Start cs ms d (noise ++ rest) =
  recvLoop Start (fold_left Z.lxor noise cs) ms d rest.
Proof.
  induction noise as [|b noise IH]; intros cs ms d rest Hn; [reflexivity|].
  inversion Hn as [|? ? Hb Hn']; subst.
  cbn [app recvLoop fold_left].
  apply Z.eqb_neq in Hb. rewrite Hb. apply IH, Hn'.
Qed.

(** Which variables each state still reads: none in [Start], the checksum
    from [GetSeq] on, the size from [MsgSize2] on. *)
Lemma recvLoop_forget rx :
  (forall cs ms d cs' ms' d',
      recvLoop Start cs ms d rx = recvLoop Start cs' ms' d' rx) /\
  (forall cs ms d ms' d',
      recvLoop GetSeq cs ms d rx = recvLoop GetSeq cs ms' d' rx) /\
  (forall cs ms d ms' d',
      recvLoop MsgSize1 cs ms d rx = recvLoop MsgSize1 cs ms' d' rx) /\
  (forall cs ms d d',
      recvLoop MsgSize2 cs ms d rx = recvLoop MsgSize2 cs ms d' rx) /\
  (forall cs ms d d',
      recvLoop Token cs ms d rx = recvLoop Token cs ms d' rx).
Proof.
  induction rx as [|b rx (IH1 & IH2 & IH3 & IH4 & IH5)].
  - repeat split; reflexivity.
  - repeat split; intros; cbn [recvLoop].
    + destruct (b =? 27); [apply IH2 | apply IH1].
    + apply IH3.
    + apply IH4.
    + apply IH5.
    + destruct (negb (b =? 14)); [apply IH1 | reflexivity].
Qed.

Lemma recvLoop_Start_decode cs ms d rx :
  recvLoop Start cs ms d rx = decode rx.
Proof. apply (proj1 (recvLoop_forget rx)). Qed.

(** A frame with a payload of at least one byte is read back as its payload,
    whatever the automaton remembers from before and whatever follows. *)
Lemma decode_frame sq data rest :
  data <> [] -> decode (frame sq data ++ rest) = (Ok data, rest).
Proof.
  intros Hne.
  assert (Hn0 : 0 <= len data) by (unfold len; lia).
  unfold decode, frame, header. rewrite <- !app_assoc.
  rewrite recvLoop_header, size_join by exact Hn0.
  rewrite (recvLoop_data data [] _ (len data)) by (exact Hne || reflexivity).
  cbn [app recvLoop].
  replace (Z.lxor _ _) with 0; [reflexivity|].
  unfold xor_all. cbn [fold_left]. rewrite Z.lxor_0_l.
  symmetry. apply Z.lxor_nilpotent.
Qed.

(** The automaton fails in one way only, and only with nothing left to
    read. *)
Lemma recvLoop_Raise rx : forall st cs ms d e rest,
  recvLoop st cs ms d rx = (Raise e, rest) ->
  e = IspErr Timeout /\ rest = [].
Proof.
  induction rx as [|b rx IH]; intros st cs ms d e rest; cbn [recvLoop].
  - intros E. inversion E. auto.
  - destruct st;
      repeat match goal with
             | |- context [if ?c then _ else _] => destruct c
             end;
      try apply IH; discriminate.
Qed.

(** A payload handed back by the automaton has at least one byte. *)
Lemma recvLoop_nonempty rx : forall st cs ms d out rest,
  (st = Checksum -> d <> []) ->
  recvLoop st cs ms d rx = (Ok out, rest) -> out <> [].
Proof.
  induction rx as [|b rx IH]; intros st cs ms d out rest Hd;
    cbn [recvLoop]; [discriminate|].
  destruct st;
    repeat match goal with
           | |- context [if ?c then _ else _] => destruct c
           end;
    try (apply IH; first [discriminate | intros _; destruct d; discriminate]).
  intros E. inversion E. subst. auto.
Qed.

Lemma recvLoop_bad_token sq hi lo t cs ms d rest :
  t <> 0x0E ->
  recvLoop Start cs ms d (0x1B :: sq :: hi :: lo :: t :: rest) = decode rest.
Proof.
  intros Ht. cbn [recvLoop]. change (27 =? 27) with true. cbv iota.
  apply Z.eqb_neq in Ht. rewrite Ht. cbn [negb].
  apply recvLoop_Start_decode.
Qed.

(** ** Frame codec *)

Example decode_seq1 :
  decode [0x1B; 0x01; 0x00; 0x01; 0x0E; 0x11; 0x04] = (Ok [0x11], []).
Proof. reflexivity. Qed.

Example build_message_seq1 : build_message 1 [0x11] = Raise TypeError.
Proof. reflexivity. Qed.

(** C1 (frame round trip): the round trip does not complete for any
    sequence number and payload.  The encoding step of [sendMessage] raises
    for every input: TypeError in its checksum loop when sequence number,
    payload bytes and length fit their fields.  On the wire bytes the
    automaton of [recvMessage] does return the payload of a frame that
    carries at least one byte (the bytes 1B 01 00 01 0E 11 04 give [11]); a
    frame with an empty payload it does not read back: it takes the checksum
    byte for payload and runs into the read timeout, and whatever follows
    the frame, the empty payload is never returned. *)
Theorem roundtrip_never_completes :
  (forall sq data, roundtrip sq data <> Ok data) /\
  (forall sq data,
     is_byte sq -> Forall is_byte data -> len data <= 65535 ->
     roundtrip sq data = Raise TypeError) /\
  (forall sq data message rest,
     wire_frame sq data message -> data <> [] ->
     decode (message ++ rest) = (Ok data, rest)) /\
  (forall sq message,
     wire_frame sq [] message ->
     decode message = (Raise (IspErr Timeout), []) /\
     (forall rest, fst (decode (message ++ rest)) <> Ok [])).
Proof.
  split; [|split; [|split]].
  - intros sq data. unfold roundtrip.
    destruct (build_message_raises sq data) as (e & -> & _). discriminate.
  - intros sq data Hs Hd Hn. unfold roundtrip.
    rewrite (build_message_TypeError sq data Hs Hd Hn). reflexivity.
  - intros sq data message rest (_ & _ & _ & ->) Hne.
    apply decode_frame, Hne.
  - intros sq message (_ & _ & _ & ->). split; [reflexivity|].
    intros rest E.
    destruct (decode _) as [r rest'] eqn:D. simpl in E. subst r.
    unfold decode in D. apply recvLoop_nonempty in D; [auto | discriminate].
Qed.

Lemma roundtrip_never_completes_witness :
  roundtrip 1 [0x11] = Raise TypeError /\
  decode ([0x1B; 0x01; 0x00; 0x01; 0x0E; 0x11; 0x04] ++ [])
    = (Ok [0x11], []) /\
  decode [0x1B; 0x01; 0x00; 0x00; 0x0E; 0x14] = (Raise (IspErr Timeout), []).
Proof.
  split; [|split].
  - apply (proj1 (proj2 roundtrip_never_completes) 1 [0x11]).
    + unfold is_byte. lia.
    + repeat constructor; unfold is_byte; lia.
    + unfold len. simpl. lia.
  - apply (proj1 (proj2 (proj2 roundtrip_never_completes)) 1 [0x11]).
    + split; [unfold is_byte; lia|]. split; [unfold len; simpl; lia|].
      split; [repeat constructor; unfold is_byte; lia | reflexivity].
    + discriminate.
  - apply (proj2 (proj2 (proj2 roundtrip_never_completes)) 1).
    split; [unfold is_byte; lia|]. split; [unfold len; simpl; lia|].
    split; [constructor | reflexivity].
Defined.

(** C2 (checksum invariant): [sendMessage] produces no frame whose bytes
    could be XOR-reduced.  For every sequence number and payload lines
    101-107 end in an exception instead of a message; when all values fit
    their fields the exception is the TypeError of the checksum loop, which
    stops at the first byte it is given. *)
Theorem no_frame_is_built :
  (forall sq data message, build_message sq data <> Ok message) /\
  (forall sq data,
     is_byte sq -> Forall is_byte data -> len data <= 65535 ->
     build_message sq data = Raise TypeError) /\
  (forall checksum c message,
     checksum_loop checksum (c :: message) = Raise TypeError).
Proof.
  split; [|split].
  - intros sq data message.
    destruct (build_message_raises sq data) as (e & -> & _). discriminate.
  - exact build_message_TypeError.
  - exact checksum_loop_raises.
Qed.

Lemma no_frame_is_built_witness :
  build_message 0 [0x13; 0x00; 0xFF] = Raise TypeError.
Proof.
  apply (proj1 (proj2 no_frame_is_built)).
  - unfold is_byte. lia.
  - repeat constructor; unfold is_byte; lia.
  - unfold len. simpl. lia.
Defined.

(** C3 as stated fails: a frame whose payload holds the start marker, with
    its token damaged, makes the automaton take that payload byte for the
    start of a frame and swallow the valid frame behind it.  Every byte of
    both frames is delivered and read; the payload [11] of the valid frame
    is not returned, the automaton asks for more and meets the timeout; and
    if a third frame follows, so that no read times out at all, it is the
    payload of the third that comes back. *)
Lemma resync_wrong_token_counterexample :
  wire_frame 1 [0x1B] [0x1B; 0x01; 0x00; 0x01; 0x0E; 0x1B; 0x0E] /\
  wire_frame 2 [0x11] [0x1B; 0x02; 0x00; 0x01; 0x0E; 0x11; 0x07] /\
  set_token [0x1B; 0x01; 0x00; 0x01; 0x0E; 0x1B; 0x0E] 0x00
    = [0x1B; 0x01; 0x00; 0x01; 0x00; 0x1B; 0x0E] /\
  decode (set_token [0x1B; 0x01; 0x00; 0x01; 0x0E; 0x1B; 0x0E] 0x00
          ++ [0x1B; 0x02; 0x00; 0x01; 0x0E; 0x11; 0x07])
    = (Raise (IspErr Timeout), []) /\
  decode (set_token [0x1B; 0x01; 0x00; 0x01; 0x0E; 0x1B; 0x0E] 0x00
          ++ [0x1B; 0x02; 0x00; 0x01; 0x0E; 0x11; 0x07]
          ++ [0x1B; 0x03; 0x00; 0x01; 0x0E; 0x33; 0x24])
    = (Ok [0x33], []).
Proof.
  split; [|split; [|split; [|split]]]; try reflexivity.
  - split; [unfold is_byte; lia|]. split; [unfold len; simpl; lia|].
    split; [repeat constructor; unfold is_byte; lia | reflexivity].
  - split; [unfold is_byte; lia|]. split; [unfold len; simpl; lia|].
    split; [repeat constructor; unfold is_byte; lia | reflexivity].
Qed.

(** C3 (resynchronisation), amended: for frames [V] and [F] on the wire
    with payloads of at least one byte,
    - [V] with its checksum byte changed, followed by [F], decodes to the
      payload of [F];
    - [V] with its token replaced by a byte other than 0x0E, followed by
      [F], decodes to the payload of [F] when no byte of [V] behind the token
      (payload and checksum) is the start marker 0x1B;
    - on a token mismatch the automaton goes back to [Start] having consumed
      the mismatched byte, which is not looked at again as a frame start. *)
Theorem resynchronisation sqV dataV V sqF dataF F :
  wire_frame sqV dataV V -> dataV <> [] ->
  wire_frame sqF dataF F -> dataF <> [] ->
  (forall c, c <> last V 0 ->
     decode (set_checksum V c ++ F) = (Ok dataF, [])) /\
  (forall t, t <> 0x0E -> Forall (fun b => b <> 0x1B) (skipn 5 V) ->
     decode (set_token V t ++ F) = (Ok dataF, [])) /\
  (forall t cs ms d rx, t <> 0x0E ->
     recvLoop Token cs ms d (t :: rx) = recvLoop Start (Z.lxor cs t) ms d rx).
Proof.
  intros HV HneV HF HneF.
  assert (DF : decode F = (Ok dataF, [])).
  { destruct HF as (_ & _ & _ & ->).
    rewrite <- (app_nil_r (frame sqF dataF)). apply decode_frame, HneF. }
  destruct HV as (_ & Hn & _ & ->). unfold frame.
  assert (Hn0 : 0 <= len dataV) by (unfold len; lia).
  split; [|split].
  - intros c Hc. rewrite last_last in Hc.
    unfold set_checksum. rewrite removelast_last.
    unfold decode, header. rewrite <- !app_assoc.
    rewrite recvLoop_header, size_join by exact Hn0.
    rewrite (recvLoop_data dataV [] _ (len dataV))
      by (exact HneV || reflexivity).
    cbn [app recvLoop].
    replace (negb (_ =? 0)) with true.
    + rewrite recvLoop_Start_decode. exact DF.
    + symmetry. apply negb_true_iff, Z.eqb_neq. intros E.
      apply Z.lxor_eq in E. apply Hc. rewrite <- E.
      reflexivity.
  - intros t Ht Hnoise. unfold set_token, header in *.
    cbn [app firstn skipn] in *.
    unfold decode at 1. rewrite recvLoop_bad_token by exact Ht.
    unfold decode at 1. rewrite recvLoop_noise by exact Hnoise.
    rewrite recvLoop_Start_decode. exact DF.
  - intros t cs ms d rx Ht. cbn [recvLoop].
    apply Z.eqb_neq in Ht. rewrite Ht. reflexivity.
Qed.

Lemma resynchronisation_witness :
  decode (set_checksum [0x1B; 0x01; 0x00; 0x01; 0x0E; 0x11; 0x04] 0xFF
          ++ [0x1B; 0x02; 0x00; 0x01; 0x0E; 0x22; 0x34]) = (Ok [0x22], []) /\
  decode (set_token [0x1B; 0x01; 0x00; 0x01; 0x0E; 0x11; 0x04] 0x1B
          ++ [0x1B; 0x02; 0x00; 0x01; 0x0E; 0x22; 0x34]) = (Ok [0x22], []).
Proof.
  assert (HV : wire_frame 1 [0x11] [0x1B; 0x01; 0x00; 0x01; 0x0E; 0x11; 0x04]).
  { split; [unfold is_byte; lia|]. split; [unfold len; simpl; lia|].
    split; [repeat constructor; unfold is_byte; lia | reflexivity]. }
  assert (HF : wire_frame 2 [0x22] [0x1B; 0x02; 0x00; 0x01; 0x0E; 0x22; 0x34]).
  { split; [unfold is_byte; lia|]. split; [unfold len; simpl; lia|].
    split; [repeat constructor; unfold is_byte; lia | reflexivity]. }
  destruct (resynchronisation
              1 [0x11] [0x1B; 0x01; 0x00; 0x01; 0x0E; 0x11; 0x04]
              2 [0x22] [0x1B; 0x02; 0x00; 0x01; 0x0E; 0x22; 0x34]
              HV ltac:(discriminate) HF ltac:(discriminate))
    as (Ha & Hb & _).
  split.
  - apply Ha. simpl. discriminate.
  - apply Hb; [discriminate|]. simpl. repeat constructor; discriminate.
Defined.

(** C9 (read timeout): in every state of the automaton a read that yields
    no byte raises Timeout at once; a run of the automaton ends either with a
    payload or with that Timeout, never otherwise; and input without the
    start marker 0x1B ends in Timeout, also through [recvMessage] on the
    connection. *)
Theorem read_timeout :
  (forall st cs ms d,
     recvLoop st cs ms d [] = (Raise (IspErr Timeout), [])) /\
  (forall st cs ms d input,
     (exists out rest, recvLoop st cs ms d input = (Ok out, rest)) \/
     recvLoop st cs ms d input = (Raise (IspErr Timeout), [])) /\
  (forall noise, Forall (fun b => b <> 0x1B) noise ->
     decode noise = (Raise (IspErr Timeout), [])) /\
  (forall self s, serial self = Some s ->
     Forall (fun b => b <> 0x1B) (rx s) ->
     fst (recvMessage self) = Raise (IspErr Timeout)).
Proof.
  assert (N : forall noise, Forall (fun b => b <> 0x1B) noise ->
                decode noise = (Raise (IspErr Timeout), [])).
  { intros noise Hn. unfold decode.
    rewrite <- (app_nil_r noise), recvLoop_noise by exact Hn. reflexivity. }
  split; [reflexivity|]. split; [|split].
  - intros st cs ms d input.
    destruct (recvLoop st cs ms d input) as [[out|e] rest] eqn:E.
    + left. eauto.
    + right. apply recvLoop_Raise in E. destruct E as [-> ->]. reflexivity.
  - exact N.
  - intros self s Hs Hn. unfold recvMessage. rewrite Hs, (N _ Hn).
    reflexivity.
Qed.

Lemma read_timeout_witness :
  decode [0x00; 0x0E; 0xFF] = (Raise (IspErr Timeout), []).
Proof.
  apply (proj1 (proj2 (proj2 read_timeout))).
  repeat constructor; lia.
Defined.

(** ** Stepping through a method body *)

Lemma bind_Ok {A B} (m : M A) (k : A -> M B) self a self' :
  m self = (Ok a, self') -> bind m k self = k a self'.
Proof. unfold bind. intros ->. reflexivity. Qed.

Lemma bind_Raise {A B} (m : M A) (k : A -> M B) self e self' :
  m self = (Raise e, self') -> bind m k self = (Raise e, self').
Proof. unfold bind. intros ->. reflexivity. Qed.

Lemma list_eqb_spec a b : reflect (a = b) (list_eqb a b).
Proof.
  unfold list_eqb. destruct (list_eq_dec Z.eq_dec a b); constructor; assumption.
Qed.

Lemma writes_app t1 t2 : writes (t1 ++ t2) = writes t1 ++ writes t2.
Proof.
  induction t1 as [|e t1 IH]; [reflexivity|].
  destruct e; simpl; rewrite IH; reflexivity.
Qed.

Lemma land_0xFF n : Z.land n 0xFF = n mod 256.
Proof. change 255 with (Z.ones 8). rewrite Z.land_ones by lia. reflexivity. Qed.

Lemma next_seq_byte n : is_byte (Z.land (n + 1) 0xFF).
Proof.
  rewrite land_0xFF. unfold is_byte.
  pose proof (Z.mod_pos_bound (n + 1) 256). lia.
Qed.

(** ** [sendMessage] as a whole *)

(** Every call ends in the exception of lines 101-107, with the instance as
    it was: the port has not been looked at. *)
Lemma sendMessage_raises data self :
  exists e,
    sendMessage data self = (Raise e, self) /\
    (e = StructError \/ e = TypeError).
Proof.
  unfold sendMessage.
  destruct (build_message_raises (seq self) data) as (e & -> & He).
  exists e. split; [reflexivity | exact He].
Qed.

Lemma sendMessage_TypeError data self :
  is_byte (seq self) -> Forall is_byte data -> len data <= 65535 ->
  sendMessage data self = (Raise TypeError, self).
Proof.
  intros Hs Hd Hn. unfold sendMessage.
  rewrite (build_message_TypeError _ _ Hs Hd Hn). reflexivity.
Qed.

Lemma sendMessage_StructError data self :
  ~ is_byte (seq self) \/ Exists (fun c => ~ is_byte c) data \/
  65535 < len data ->
  sendMessage data self = (Raise StructError, self).
Proof.
  intros Hbad. unfold sendMessage.
  rewrite (build_message_StructError _ _ Hbad). reflexivity.
Qed.

Lemma sendMessage_state data self : snd (sendMessage data self) = self.
Proof.
  destruct (sendMessage_raises data self) as (e & -> & _). reflexivity.
Qed.

Lemma load_address_bytes flashSize :
  Forall is_byte (load_address flashSize) /\
  len (load_address flashSize) <= 65535.
Proof.
  unfold load_address. destruct (flashSize >? 65535);
    (split; [repeat constructor; unfold is_byte; lia | unfold len; simpl; lia]).
Qed.

Lemma load_address_cases flashSize :
  exists b,
    load_address flashSize = [0x06; b; 0x00; 0x00; 0x00] /\
    (b = 0x80 <-> flashSize > 0xFFFF) /\
    (b = 0x00 <-> flashSize <= 0xFFFF).
Proof.
  unfold load_address.
  destruct (Z.gtb_spec flashSize 65535) as [H|H].
  - exists 0x80. split; [reflexivity|]. split; split; intros; lia.
  - exists 0x00. split; [reflexivity|]. split; split; intros; lia.
Qed.

(** ** Lines 108-114 on a message *)

Lemma transmit_seq message self :
  match fst (transmit message self) with
  | Ok _ | Raise (IspErr Timeout) =>
      seq (snd (transmit message self)) = (seq self + 1) mod 256
  | Raise _ => seq (snd (transmit message self)) = seq self
  end.
Proof.
  unfold transmit. destruct (serial self) as [s|] eqn:Hs; [|reflexivity].
  destruct (serial_write s message) as [[|] s1]; [|reflexivity].
  unfold recvMessage. cbn -[decode Z.land].
  destruct (decode (rx s1)) as [[r|e] rest] eqn:D; cbn -[Z.land].
  - apply land_0xFF.
  - apply recvLoop_Raise in D. destruct D as [-> _]. apply land_0xFF.
Qed.




(** ** Connecting *)

Lemma connect_opened os_open name speed self pending far_end :
  os_open name speed = Opened pending far_end ->
  connect os_open name speed self
  = handshake (after_reset name speed far_end self).
Proof.
  intros Hopen. unfold connect, handshake, after_reset, closing.
  destruct self as [[s0|] sq la pc ch tr];
    cbv [bind get close open_serial modify on_serial ret set_serial
           set_seq set_rx log serial seq lastAddr progressCallback chip
           trace port];
    rewrite Hopen; cbv beta iota; rewrite <- !app_assoc; reflexivity.
Qed.

Lemma connect_open_failure os_open name speed self :
  (os_open name speed = OpenSerialException ->
   connect os_open name speed self
   = (Raise (IspErr FailedToOpenSerialPort), after_close self)) /\
  (os_open name speed = OpenOtherException ->
   connect os_open name speed self
   = (Raise (IspErr (UnexpectedErrorWhileConnecting name)),
      after_close self)).
Proof.
  split; intros Hopen; unfold connect, after_close, closing;
    destruct self as [[s0|] sq la pc ch tr];
    cbv [bind get close open_serial modify on_serial ret set_serial
           set_seq set_rx log serial seq lastAddr progressCallback chip
           trace port];
    rewrite Hopen; cbv beta iota; rewrite ?app_nil_r; reflexivity.
Qed.

Lemma handshake_raises st :
  exists e,
    handshake st = (Raise e, st) /\ (e = StructError \/ e = TypeError).
Proof.
  destruct (sendMessage_raises [1] st) as (e & He & Hc).
  exists e. split; [|exact Hc].
  unfold handshake. apply bind_Raise. exact He.
Qed.

Lemma connect_TypeError os_open name speed self pending far_end :
  os_open name speed = Opened pending far_end ->
  connect os_open name speed self
  = (Raise TypeError, after_reset name speed far_end self).
Proof.
  intros Hopen. rewrite (connect_opened _ _ _ _ _ _ Hopen).
  unfold handshake. apply bind_Raise. apply sendMessage_TypeError.
  - unfold is_byte. simpl. lia.
  - repeat constructor; unfold is_byte; lia.
  - unfold len. simpl. lia.
Qed.

Lemma connect_never_Ok os_open name speed self :
  fst (connect os_open name speed self) <> Ok tt.
Proof.
  destruct (os_open name speed) as [pending far_end| |] eqn:Hopen.
  - rewrite (connect_TypeError _ _ _ _ _ _ Hopen). discriminate.
  - rewrite (proj1 (connect_open_failure _ _ _ _) Hopen). discriminate.
  - rewrite (proj2 (connect_open_failure _ _ _ _) Hopen). discriminate.
Qed.

Lemma writes_after_reset name speed far_end self :
  writes (trace (after_reset name speed far_end self)) = writes (trace self).
Proof.
  unfold after_reset, closing. cbn [trace]. rewrite !writes_app.
  destruct (serial self); simpl; rewrite app_nil_r; reflexivity.
Qed.

Lemma enter_check_rejects r self s :
  serial self = Some s -> r <> [0x10; 0x00] ->
  enter_check r self
  = (Raise (IspErr FailedToEnterProgrammingMode),
     set_serial None (log (EvClose (port s)) self)).
Proof.
  intros Hs Hr. unfold enter_check.
  destruct (list_eqb_spec r [0x10; 0x00]) as [E|_]; [contradiction|].
  cbn [negb]. unfold bind, close, raise. rewrite Hs. reflexivity.
Qed.

Lemma enter_check_accepts self s :
  serial self = Some s ->
  exists self',
    enter_check [0x10; 0x00] self = (Ok tt, self') /\
    serial self' = Some (set_timeout 5 s) /\ seq self' = seq self /\
    trace self' = trace self.
Proof.
  intros Hs. unfold enter_check.
  destruct (list_eqb_spec [0x10; 0x00] [0x10; 0x00]) as [_|E];
    [|contradiction].
  cbn [negb]. unfold on_serial. rewrite Hs.
  eexists. split; [reflexivity|]. simpl. rewrite app_nil_r. auto.
Qed.

(** C4 (handshake contract): [connect] never completes the handshake.  It
    returns on no input; once the port is open it raises the TypeError of
    the first [sendMessage] with the port left open and nothing written,
    whatever the far end would have answered, so neither the success nor
    the handshake error of the claim is ever reached.  The comparison of
    lines 40-43 itself does what the claim says, on every reply payload
    put before it: a payload other than [10 00] closes the port and raises
    "Failed to enter programming mode", the payload [10 00] lets [connect]
    go on with the port open and the read timeout raised to 5. *)
Theorem connect_never_enters_programming_mode :
  (forall os_open name speed self,
     fst (connect os_open name speed self) <> Ok tt) /\
  (forall os_open name speed self pending far_end,
     os_open name speed = Opened pending far_end ->
     connect os_open name speed self
       = (Raise TypeError, after_reset name speed far_end self) /\
     isConnected (after_reset name speed far_end self) = true /\
     writes (trace (after_reset name speed far_end self))
       = writes (trace self)) /\
  (forall r self s,
     serial self = Some s -> r <> [0x10; 0x00] ->
     enter_check r self
       = (Raise (IspErr FailedToEnterProgrammingMode),
          set_serial None (log (EvClose (port s)) self))) /\
  (forall self s,
     serial self = Some s ->
     exists self',
       enter_check [0x10; 0x00] self = (Ok tt, self') /\
       serial self' = Some (set_timeout 5 s) /\ seq self' = seq self /\
       trace self' = trace self).
Proof.
  split; [exact connect_never_Ok|]. split; [|split].
  - intros os_open name speed self pending far_end Hopen.
    split; [exact (connect_TypeError _ _ _ _ _ _ Hopen)|].
    split; [reflexivity | apply writes_after_reset].
  - exact enter_check_rejects.
  - exact enter_check_accepts.
Qed.

Lemma connect_never_enters_programming_mode_witness :
  connect
    (fun _ _ => Opened []
                  [Reply (frame 1 [0x01; 0x00]); Reply (frame 2 [0x10; 0xC0])])
    "COM22" 115200 (init (mkChip 128 1024))
  = (Raise TypeError,
     after_reset "COM22" 115200
       [Reply (frame 1 [0x01; 0x00]); Reply (frame 2 [0x10; 0xC0])]
       (init (mkChip 128 1024))) /\
  enter_check [0x10; 0xC0]
    (mkStk500v2 (Some (mkSerial "COM22" 115200 1 10000 [] [])) 3 (-1) false
       (mkChip 128 1024) [])
  = (Raise (IspErr FailedToEnterProgrammingMode),
     set_serial None
       (log (EvClose (port (mkSerial "COM22" 115200 1 10000 [] [])))
          (mkStk500v2 (Some (mkSerial "COM22" 115200 1 10000 [] [])) 3 (-1)
             false (mkChip 128 1024) []))) /\
  (exists self',
     enter_check [0x10; 0x00]
       (mkStk500v2 (Some (mkSerial "COM22" 115200 1 10000 [] [])) 3 (-1)
          false (mkChip 128 1024) [])
     = (Ok tt, self') /\
     serial self' = Some (set_timeout 5 (mkSerial "COM22" 115200 1 10000 [] [])) /\
     seq self' = 3 /\ trace self' = []).
Proof.
  split; [|split].
  - apply (proj1 (proj1 (proj2 connect_never_enters_programming_mode)
                    (fun _ _ => Opened []
                                  [Reply (frame 1 [0x01; 0x00]);
                                   Reply (frame 2 [0x10; 0xC0])])
                    "COM22"%string 115200 (init (mkChip 128 1024)) []
                    [Reply (frame 1 [0x01; 0x00]);
                     Reply (frame 2 [0x10; 0xC0])]
                    eq_refl)).
  - apply (proj1 (proj2 (proj2 connect_never_enters_programming_mode))
             [0x10; 0xC0]
             (mkStk500v2 (Some (mkSerial "COM22" 115200 1 10000 [] [])) 3 (-1)
                false (mkChip 128 1024) [])
             (mkSerial "COM22" 115200 1 10000 [] []) eq_refl).
    discriminate.
  - apply (proj2 (proj2 (proj2 connect_never_enters_programming_mode))
             (mkStk500v2 (Some (mkSerial "COM22" 115200 1 10000 [] [])) 3 (-1)
                false (mkChip 128 1024) [])
             (mkSerial "COM22" 115200 1 10000 [] []) eq_refl).
Defined.

(** ** Writing and verifying *)

Lemma program_pages_raises pageSize flashData self :
  program_pages pageSize flashData self
  = (Raise (if pageSize =? 0 then ZeroDivisionError else TypeError), self).
Proof.
  unfold program_pages, bind, truediv. destruct (pageSize =? 0); reflexivity.
Qed.

Lemma read_blocks_raises flashData self :
  read_blocks flashData self = (Raise TypeError, self).
Proof. reflexivity. Qed.

Lemma writeFlash_raises flashData self :
  exists e,
    sendMessage
      (load_address (pageSize (chip self) * 2 * pageCount (chip self))) self
      = (Raise e, self) /\
    writeFlash flashData self = (Raise e, self) /\
    (e = StructError \/ e = TypeError).
Proof.
  destruct (sendMessage_raises
              (load_address (pageSize (chip self) * 2 * pageCount (chip self)))
              self) as (e & He & Hc).
  exists e. split; [exact He|]. split; [|exact Hc].
  unfold writeFlash, bind, get. cbv beta iota zeta. rewrite He. reflexivity.
Qed.

Lemma verifyFlash_raises flashData self :
  exists e,
    sendMessage
      (load_address (pageSize (chip self) * 2 * pageCount (chip self))) self
      = (Raise e, self) /\
    verifyFlash flashData self = (Raise e, self) /\
    (e = StructError \/ e = TypeError).
Proof.
  destruct (sendMessage_raises
              (load_address (pageSize (chip self) * 2 * pageCount (chip self)))
              self) as (e & He & Hc).
  exists e. split; [exact He|]. split; [|exact Hc].
  unfold verifyFlash, bind, get. cbv beta iota zeta. rewrite He. reflexivity.
Qed.

Lemma writeFlash_TypeError flashData self :
  is_byte (seq self) -> writeFlash flashData self = (Raise TypeError, self).
Proof.
  intros Hs. unfold writeFlash, bind, get. cbv beta iota zeta.
  rewrite sendMessage_TypeError;
    [reflexivity | exact Hs | apply load_address_bytes..].
Qed.

Lemma verifyFlash_TypeError flashData self :
  is_byte (seq self) -> verifyFlash flashData self = (Raise TypeError, self).
Proof.
  intros Hs. unfold verifyFlash, bind, get. cbv beta iota zeta.
  rewrite sendMessage_TypeError;
    [reflexivity | exact Hs | apply load_address_bytes..].
Qed.

Lemma slice_firstn_skipn {A} (l : list A) a b :
  0 <= a <= b ->
  slice l a b = firstn (Z.to_nat (b - a)) (skipn (Z.to_nat a) l).
Proof.
  intros Hab. unfold slice, slice_bound.
  replace (a <? 0) with false by (symmetry; apply Z.ltb_ge; lia).
  replace (b <? 0) with false by (symmetry; apply Z.ltb_ge; lia).
  destruct (Z_lt_le_dec a (len l)) as [Hlt|Hge].
  - rewrite (Z.min_l a) by lia.
    set (x := skipn (Z.to_nat a) l).
    assert (Hx : len x = len l - a).
    { unfold x, len in *. rewrite length_skipn. lia. }
    destruct (Z_le_gt_dec b (len l)) as [Hfull|Hshort].
    + rewrite Z.min_l by lia. reflexivity.
    + rewrite Z.min_r by lia.
      rewrite !firstn_all2; [reflexivity| |]; unfold len in *; lia.
  - rewrite !Z.min_r by lia. rewrite Z.sub_diag. simpl.
    rewrite skipn_all2 by (unfold len in *; lia).
    rewrite firstn_nil. reflexivity.
Qed.

Lemma program_page_chunk pageSize flashData i :
  0 <= i -> 0 <= pageSize ->
  program_page pageSize flashData i
  = [0x13; Z.shiftr pageSize 8; Z.land pageSize 0xFF;
     0xc1; 0x0a; 0x40; 0x4c; 0x20; 0x00; 0x00]
    ++ firstn (Z.to_nat pageSize) (skipn (Z.to_nat (i * pageSize)) flashData).
Proof.
  intros Hi Hp. unfold program_page. f_equal.
  rewrite slice_firstn_skipn by nia. f_equal. f_equal. lia.
Qed.

(** C5 (chunking): [writeFlash] issues no program-page command at all.  It
    ends in the exception of its first [sendMessage], the TypeError of the
    checksum loop when the sequence number is a byte, with the instance as
    it was; and lines 77-81 on their own do not reach the loop either: the
    quotient of line 77 is a float, which [range] refuses with TypeError
    (the division raises ZeroDivisionError for a page size of 0).  The
    payload that line 79 puts together for page [i] is the ten parameter
    bytes followed by the bytes of the image from offset i * P on, P of them
    or as many as are left. *)
Theorem writeFlash_sends_no_page :
  (forall flashData self,
     exists e,
       writeFlash flashData self = (Raise e, self) /\
       (e = StructError \/ e = TypeError)) /\
  (forall flashData self,
     is_byte (seq self) ->
     writeFlash flashData self = (Raise TypeError, self)) /\
  (forall pageSize flashData self,
     program_pages pageSize flashData self
     = (Raise (if pageSize =? 0 then ZeroDivisionError else TypeError),
        self)) /\
  (forall pageSize flashData i,
     0 <= i -> 0 <= pageSize ->
     program_page pageSize flashData i
     = [0x13; Z.shiftr pageSize 8; Z.land pageSize 0xFF;
        0xc1; 0x0a; 0x40; 0x4c; 0x20; 0x00; 0x00]
       ++ firstn (Z.to_nat pageSize)
            (skipn (Z.to_nat (i * pageSize)) flashData)).
Proof.
  split; [|split; [|split]].
  - intros flashData self.
    destruct (writeFlash_raises flashData self) as (e & _ & He & Hc). eauto.
  - exact writeFlash_TypeError.
  - exact program_pages_raises.
  - exact program_page_chunk.
Qed.

Lemma writeFlash_sends_no_page_witness :
  writeFlash [1; 2; 3; 4; 5; 6]
    (mkStk500v2
       (Some (mkSerial "COM22" 115200 5 10000 []
                [Reply (frame 3 [0x06; 0x00]); Reply (frame 4 [0x13; 0x00]);
                 Reply (frame 5 [0x13; 0x00])]))
       3 (-1) false (mkChip 2 1024) [])
  = (Raise TypeError,
     mkStk500v2
       (Some (mkSerial "COM22" 115200 5 10000 []
                [Reply (frame 3 [0x06; 0x00]); Reply (frame 4 [0x13; 0x00]);
                 Reply (frame 5 [0x13; 0x00])]))
       3 (-1) false (mkChip 2 1024) []) /\
  program_page 4 [1; 2; 3; 4; 5; 6] 1
  = [0x13; Z.shiftr 4 8; Z.land 4 0xFF;
     0xc1; 0x0a; 0x40; 0x4c; 0x20; 0x00; 0x00]
    ++ firstn (Z.to_nat 4) (skipn (Z.to_nat (1 * 4)) [1; 2; 3; 4; 5; 6]).
Proof.
  split.
  - apply (proj1 (proj2 writeFlash_sends_no_page)).
    unfold is_byte. simpl. lia.
  - apply (proj2 (proj2 (proj2 writeFlash_sends_no_page))); lia.
Defined.

(** C6 (extended addressing): no load-address command is issued.  Both
    [writeFlash] and [verifyFlash] do hand [sendMessage] the payload
    [06 b 00 00 00] with [b] = 0x80 exactly when pageSize * 2 * pageCount
    exceeds 0xFFFF and 0x00 otherwise, but that call raises before the port
    is written to, both methods end in its exception, and the instance is as
    it was: nothing has been written. *)
Theorem load_address_is_not_written flashData self :
  (exists b,
     load_address (pageSize (chip self) * 2 * pageCount (chip self))
       = [0x06; b; 0x00; 0x00; 0x00] /\
     (b = 0x80 <-> pageSize (chip self) * 2 * pageCount (chip self) > 0xFFFF) /\
     (b = 0x00 <-> pageSize (chip self) * 2 * pageCount (chip self) <= 0xFFFF)) /\
  (exists e,
     sendMessage
       (load_address (pageSize (chip self) * 2 * pageCount (chip self))) self
       = (Raise e, self) /\
     writeFlash flashData self = (Raise e, self) /\
     verifyFlash flashData self = (Raise e, self) /\
     (e = StructError \/ e = TypeError)) /\
  writes (trace (snd (writeFlash flashData self))) = writes (trace self) /\
  writes (trace (snd (verifyFlash flashData self))) = writes (trace self).
Proof.
  destruct (writeFlash_raises flashData self) as (e & He & Hw & Hc).
  destruct (verifyFlash_raises flashData self) as (e' & He' & Hv & _).
  assert (e' = e) by congruence. subst e'.
  split; [apply load_address_cases|]. split.
  - exists e. auto.
  - rewrite Hw, Hv. auto.
Qed.

(** ** The comparison loop of [verifyFlash] *)

Lemma index_Some {A} (l : list A) o :
  0 <= o < len l -> exists x, index l o = Some x.
Proof.
  intros Ho. unfold index, len in *.
  replace (o <? 0) with false by (symmetry; apply Z.ltb_ge; lia).
  destruct (nth_error l (Z.to_nat o)) as [x|] eqn:E; [eauto|].
  apply nth_error_None in E. lia.
Qed.

(** One position where the block agrees with the image, or lies behind its
    end. *)
Lemma verify_byte_pass flashData recv i j self :
  0 <= i -> 0 <= j ->
  (i * 0x100 + j < len flashData ->
   index recv j = index flashData (i * 0x100 + j)) ->
  verify_byte flashData recv i j self = (Ok tt, self).
Proof.
  intros Hi Hj H. unfold verify_byte.
  destruct (Z.ltb_spec (i * 0x100 + j) (len flashData)) as [Hlt|_];
    [|reflexivity].
  destruct (index_Some flashData (i * 0x100 + j) ltac:(lia)) as [x Hx].
  rewrite (H Hlt), Hx, Z.eqb_refl. reflexivity.
Qed.

Lemma verify_byte_hit flashData recv i j a b self :
  i * 0x100 + j < len flashData ->
  index flashData (i * 0x100 + j) = Some a -> index recv j = Some b ->
  a <> b ->
  verify_byte flashData recv i j self
    = (Raise (IspErr (VerifyErrorAt (i * 0x100 + j))), self).
Proof.
  intros Hlt Ha Hb Hab. unfold verify_byte.
  apply Z.ltb_lt in Hlt. rewrite Hlt, Ha, Hb.
  apply Z.eqb_neq in Hab. rewrite Hab. reflexivity.
Qed.

(** The inner loop from position [a] on: it stops at the first position
    [j0] that differs. *)
Lemma verify_scan_hit flashData recv i j0 x y self : forall n a,
  0 <= i -> (a <= j0 < a + n)%nat ->
  (forall j, (a <= j < j0)%nat ->
     index recv (Z.of_nat j) = index flashData (i * 0x100 + Z.of_nat j)) ->
  i * 0x100 + Z.of_nat j0 < len flashData ->
  index flashData (i * 0x100 + Z.of_nat j0) = Some x ->
  index recv (Z.of_nat j0) = Some y -> x <> y ->
  for_each (map (fun k => 0 + Z.of_nat k) (List.seq a n))
    (verify_byte flashData recv i) self
  = (Raise (IspErr (VerifyErrorAt (i * 0x100 + Z.of_nat j0))), self).
Proof.
  induction n as [|n IH]; intros a Hi Hj0 Hpre Hlt Hx Hy Hxy; [lia|].
  cbn [List.seq map for_each].
  destruct (Nat.eq_dec a j0) as [->|Hne].
  - erewrite bind_Raise; [reflexivity|].
    apply (verify_byte_hit _ _ _ _ x y); assumption.
  - erewrite bind_Ok.
    + apply IH; try assumption; [lia|]. intros j Hj. apply Hpre. lia.
    + apply verify_byte_pass; [lia | lia |]. intros _. apply Hpre. lia.
Qed.

Lemma range_256 :
  range 0 0x100 = map (fun k => 0 + Z.of_nat k) (List.seq 0 256).
Proof. reflexivity. Qed.

Lemma compare_block_hit flashData recv i j0 x y self :
  0 <= i -> 0 <= j0 < 0x100 ->
  (forall j, 0 <= j < j0 ->
     index recv j = index flashData (i * 0x100 + j)) ->
  i * 0x100 + j0 < len flashData ->
  index flashData (i * 0x100 + j0) = Some x ->
  index recv j0 = Some y -> x <> y ->
  compare_block flashData recv i self
  = (Raise (IspErr (VerifyErrorAt (i * 0x100 + j0))), self).
Proof.
  intros Hi Hj0 Hpre Hlt Hx Hy Hxy. unfold compare_block. rewrite range_256.
  replace j0 with (Z.of_nat (Z.to_nat j0)) in * by lia.
  apply (verify_scan_hit _ _ _ _ x y); try assumption; try lia.
  intros j Hj. apply Hpre. lia.
Qed.

(** C7 (verify detection): [verifyFlash] reports no offset, for any image
    and any read-back.  It ends in the exception of its first [sendMessage],
    the TypeError of the checksum loop when the sequence number is a byte,
    before any page is read back; lines 91-98 on their own end in TypeError
    too, the quotient of line 91 being a float that [range] refuses.  The
    comparison of lines 96-98, put before the data read back for a block,
    does raise the verify error for the first offset inside the image at
    which that data differs, whatever the data holds behind it. *)
Theorem verifyFlash_reports_no_offset :
  (forall flashData self,
     exists e,
       verifyFlash flashData self = (Raise e, self) /\
       (e = StructError \/ e = TypeError)) /\
  (forall flashData self,
     is_byte (seq self) ->
     verifyFlash flashData self = (Raise TypeError, self)) /\
  (forall flashData self,
     read_blocks flashData self = (Raise TypeError, self)) /\
  (forall flashData recv i j0 x y self,
     0 <= i -> 0 <= j0 < 0x100 ->
     (forall j, 0 <= j < j0 ->
        index recv j = index flashData (i * 0x100 + j)) ->
     i * 0x100 + j0 < len flashData ->
     index flashData (i * 0x100 + j0) = Some x ->
     index recv j0 = Some y -> x <> y ->
     compare_block flashData recv i self
     = (Raise (IspErr (VerifyErrorAt (i * 0x100 + j0))), self)).
Proof.
  split; [|split; [|split]].
  - intros flashData self.
    destruct (verifyFlash_raises flashData self) as (e & _ & He & Hc). eauto.
  - exact verifyFlash_TypeError.
  - exact read_blocks_raises.
  - exact compare_block_hit.
Qed.

Lemma verifyFlash_reports_no_offset_witness :
  verifyFlash [1; 2; 3]
    (mkStk500v2
       (Some (mkSerial "COM22" 115200 5 10000 []
                [Reply (frame 3 [0x06; 0x00]);
                 Reply (frame 4 [0x14; 0x00; 1; 9; 3; 0x00])]))
       3 (-1) false (mkChip 128 1024) [])
  = (Raise TypeError,
     mkStk500v2
       (Some (mkSerial "COM22" 115200 5 10000 []
                [Reply (frame 3 [0x06; 0x00]);
                 Reply (frame 4 [0x14; 0x00; 1; 9; 3; 0x00])]))
       3 (-1) false (mkChip 128 1024) []) /\
  compare_block [1; 2; 3] [1; 9; 3] 0 (init (mkChip 128 1024))
  = (Raise (IspErr (VerifyErrorAt (0 * 0x100 + 1))), init (mkChip 128 1024)).
Proof.
  split.
  - apply (proj1 (proj2 verifyFlash_reports_no_offset)).
    unfold is_byte. simpl. lia.
  - apply (proj2 (proj2 (proj2 verifyFlash_reports_no_offset))
             [1; 2; 3] [1; 9; 3] 0 1 2 9 (init (mkChip 128 1024))).
    + lia.
    + lia.
    + intros j Hj. assert (j = 0) by lia. subst j. reflexivity.
    + unfold len. simpl. lia.
    + reflexivity.
    + reflexivity.
    + lia.
Defined.

(** ** Sequence numbers *)




(** ** Ownership of the port *)

Lemma leaveISP_unconnected self :
  serial self = None -> leaveISP self = (Ok None, self).
Proof.
  intros Hs. unfold leaveISP, bind, get. cbv beta iota. rewrite Hs.
  reflexivity.
Qed.

Lemma leaveISP_connected self s :
  serial self = Some s ->
  exists e,
    leaveISP self = (Raise e, self) /\ (e = StructError \/ e = TypeError).
Proof.
  intros Hs. destruct (sendMessage_raises [0x11] self) as (e & He & Hc).
  exists e. split; [|exact Hc].
  unfold leaveISP, bind, get. cbv beta iota. rewrite Hs. cbv beta iota.
  rewrite He. reflexivity.
Qed.

Lemma leaveISP_state self : snd (leaveISP self) = self.
Proof.
  destruct (serial self) as [s|] eqn:Hs.
  - destruct (leaveISP_connected self s Hs) as (e & -> & _). reflexivity.
  - rewrite (leaveISP_unconnected self Hs). reflexivity.
Qed.

Lemma leave_check_accepts self :
  leave_check [0x11; 0x00] self = (Ok (serial self), set_serial None self).
Proof. reflexivity. Qed.





(** ** Runs on concrete far ends *)

Example connect_on_an_answering_far_end :
  connect
    (fun _ _ => Opened [0xFF; 0x1B]
                  [Reply (frame 1 [0x01; 0x00]); Reply (frame 2 [0x10; 0x00])])
    "COM22" 115200 (init (mkChip 128 1024))
  = (Raise TypeError,
     mkStk500v2
       (Some (mkSerial "COM22" 115200 1 10000 []
                [Reply (frame 1 [0x01; 0x00]); Reply (frame 2 [0x10; 0x00])]))
       1 (-1) false (mkChip 128 1024)
       [EvOpen "COM22" 115200; EvSetDTR 1; EvSleep 100; EvSetDTR 0;
        EvSleep 200; EvFlushInput; EvFlushOutput]).
Proof. reflexivity. Qed.

Example transmit_on_an_answering_far_end :
  transmit (frame 255 [0x11])
    (mkStk500v2
       (Some (mkSerial "COM22" 115200 5 10000 [] [Reply (frame 9 [0x11; 0x00])]))
       255 (-1) false (mkChip 128 1024) [])
  = (Ok [0x11; 0x00],
     mkStk500v2 (Some (mkSerial "COM22" 115200 5 10000 [] [])) 0 (-1) false
       (mkChip 128 1024) [EvWrite (frame 255 [0x11])]).
Proof. reflexivity. Qed.

Example recvMessage_reads_one_frame :
  recvMessage
    (mkStk500v2
       (Some (mkSerial "COM22" 115200 5 10000
                (0xFF :: frame 9 [0x11; 0x00] ++ [0x1B]) []))
       10 (-1) false (mkChip 128 1024) [])
  = (Ok [0x11; 0x00],
     mkStk500v2 (Some (mkSerial "COM22" 115200 5 10000 [0x1B] [])) 10 (-1)
       false (mkChip 128 1024) []).
Proof. reflexivity. Qed.

(** * Further properties of the protocol engine *)

(** ** The receive automaton *)

(** X1.  A frame on the wire with a payload of at least one byte is found
    by [recvMessage] behind any run of bytes that holds no start marker, its
    sequence number is not looked at, and the bytes behind the frame stay
    unread on the port. *)
Theorem decode_skips_noise sq data message noise rest :
  wire_frame sq data message -> data <> [] ->
  Forall (fun b => b <> 0x1B) noise ->
  decode (noise ++ message ++ rest) = (Ok data, rest) /\
  (forall self s,
     serial self = Some s -> rx s = noise ++ message ++ rest ->
     recvMessage self = (Ok data, set_serial (Some (set_rx rest s)) self)).
Proof.
  intros (_ & _ & _ & ->) Hne Hn.
  assert (D : decode (noise ++ frame sq data ++ rest) = (Ok data, rest)).
  { unfold decode. rewrite recvLoop_noise by exact Hn.
    rewrite recvLoop_Start_decode. apply decode_frame, Hne. }
  split; [exact D|].
  intros self s Hs Hrx. unfold recvMessage. rewrite Hs, Hrx, D. reflexivity.
Qed.

Lemma decode_skips_noise_witness :
  decode ([0x00; 0xFF; 0x0E] ++ [0x1B; 0x09; 0x00; 0x02; 0x0E; 0x10; 0x00; 0x0E]
          ++ [0x1B; 0x55]) = (Ok [0x10; 0x00], [0x1B; 0x55]) /\
  recvMessage
    (mkStk500v2
       (Some (mkSerial "COM22" 115200 5 10000
                ([0x00; 0xFF; 0x0E]
                 ++ [0x1B; 0x09; 0x00; 0x02; 0x0E; 0x10; 0x00; 0x0E]
                 ++ [0x1B; 0x55]) []))
       3 (-1) false (mkChip 128 1024) [])
  = (Ok [0x10; 0x00],
     set_serial
       (Some (set_rx [0x1B; 0x55]
                (mkSerial "COM22" 115200 5 10000
                   ([0x00; 0xFF; 0x0E]
                    ++ [0x1B; 0x09; 0x00; 0x02; 0x0E; 0x10; 0x00; 0x0E]
                    ++ [0x1B; 0x55]) [])))
       (mkStk500v2
          (Some (mkSerial "COM22" 115200 5 10000
                   ([0x00; 0xFF; 0x0E]
                    ++ [0x1B; 0x09; 0x00; 0x02; 0x0E; 0x10; 0x00; 0x0E]
                    ++ [0x1B; 0x55]) []))
          3 (-1) false (mkChip 128 1024) [])).
Proof.
  assert (W : wire_frame 9 [0x10; 0x00]
                [0x1B; 0x09; 0x00; 0x02; 0x0E; 0x10; 0x00; 0x0E]).
  { split; [unfold is_byte; lia|]. split; [unfold len; simpl; lia|].
    split; [repeat constructor; unfold is_byte; lia | reflexivity]. }
  assert (N : Forall (fun b => b <> 0x1B) [0x00; 0xFF; 0x0E])
    by (repeat constructor; discriminate).
  split.
  - apply (proj1 (decode_skips_noise 9 [0x10; 0x00]
                    [0x1B; 0x09; 0x00; 0x02; 0x0E; 0x10; 0x00; 0x0E]
                    [0x00; 0xFF; 0x0E] [0x1B; 0x55]
                    W ltac:(discriminate) N)).
  - apply (proj2 (decode_skips_noise 9 [0x10; 0x00]
                    [0x1B; 0x09; 0x00; 0x02; 0x0E; 0x10; 0x00; 0x0E]
                    [0x00; 0xFF; 0x0E] [0x1B; 0x55]
                    W ltac:(discriminate) N)
             (mkStk500v2
                (Some (mkSerial "COM22" 115200 5 10000
                         ([0x00; 0xFF; 0x0E]
                          ++ [0x1B; 0x09; 0x00; 0x02; 0x0E; 0x10; 0x00; 0x0E]
                          ++ [0x1B; 0x55]) []))
                3 (-1) false (mkChip 128 1024) [])
             (mkSerial "COM22" 115200 5 10000
                ([0x00; 0xFF; 0x0E]
                 ++ [0x1B; 0x09; 0x00; 0x02; 0x0E; 0x10; 0x00; 0x0E]
                 ++ [0x1B; 0x55]) [])
             eq_refl eq_refl).
Defined.

Lemma xor_all_snoc l b : xor_all (l ++ [b]) = Z.lxor (xor_all l) b.
Proof. unfold xor_all. rewrite fold_left_app. reflexivity. Qed.

(** From any state that has read [part] of a frame: a payload handed back
    sits in the input framed as a frame on the wire. *)
Lemma recvLoop_sound rx : forall st cs ms d junk part out rest,
  frame_prefix st cs ms d part ->
  recvLoop st cs ms d rx = (Ok out, rest) ->
  exists junk' sq hi lo c,
    junk ++ part ++ rx
      = junk' ++ ([0x1B; sq; hi; lo; 0x0E] ++ out ++ [c]) ++ rest /\
    len out = Z.lor (Z.shiftl hi 8) lo /\
    xor_all ([0x1B; sq; hi; lo; 0x0E] ++ out ++ [c]) = 0 /\
    out <> [].
Proof.
  induction rx as [|b rx IH]; intros st cs ms d junk part out rest Hinv;
    cbn [recvLoop]; [discriminate|].
  assert (Hshift : junk ++ part ++ b :: rx = junk ++ (part ++ [b]) ++ rx)
    by (rewrite <- app_assoc; reflexivity).
  assert (Hdrop : junk ++ part ++ b :: rx = (junk ++ part ++ [b]) ++ [] ++ rx)
    by (rewrite <- !app_assoc; reflexivity).
  destruct st; cbn [frame_prefix] in Hinv.
  - destruct (Z.eqb_spec b 27) as [->|Hb]; intros H.
    + replace (junk ++ part ++ 27 :: rx) with ((junk ++ part) ++ [27] ++ rx)
        by (rewrite <- !app_assoc; reflexivity).
      refine (IH _ _ _ _ (junk ++ part) [27] _ _ _ H).
      split; reflexivity.
    + rewrite Hdrop.
      refine (IH _ _ _ _ (junk ++ part ++ [b]) [] _ _ _ H). exact I.
  - destruct Hinv as [-> ->]. intros H. rewrite Hshift.
    refine (IH _ _ _ _ junk _ _ _ _ H).
    exists b. split; reflexivity.
  - destruct Hinv as (sq & -> & ->). intros H. rewrite Hshift.
    refine (IH _ _ _ _ junk _ _ _ _ H).
    exists sq, b. repeat split.
  - destruct Hinv as (sq & hi & -> & -> & ->). intros H. rewrite Hshift.
    refine (IH _ _ _ _ junk _ _ _ _ H).
    exists sq, hi, b. repeat split.
  - destruct Hinv as (sq & hi & lo & -> & -> & ->).
    destruct (Z.eqb_spec b 14) as [->|Hb]; cbn [negb]; intros H.
    + rewrite Hshift.
      refine (IH _ _ _ _ junk _ _ _ _ H).
      exists sq, hi, lo. repeat split.
    + rewrite Hdrop.
      refine (IH _ _ _ _ (junk ++ _ ++ [b]) [] _ _ _ H). exact I.
  - destruct Hinv as (sq & hi & lo & -> & -> & ->).
    assert (Hpart : ([27; sq; hi; lo; 14] ++ d) ++ [b]
                    = [27; sq; hi; lo; 14] ++ (d ++ [b]))
      by (rewrite <- app_assoc; reflexivity).
    destruct (Z.eqb_spec (len (d ++ [b])) (Z.lor (Z.shiftl hi 8) lo))
      as [Hlen|Hlen]; intros H; rewrite Hshift, Hpart.
    + refine (IH _ _ _ _ junk _ _ _ _ H).
      exists sq, hi, lo. rewrite <- Hpart, xor_all_snoc.
      repeat split; [exact Hlen|]. destruct d; discriminate.
    + refine (IH _ _ _ _ junk _ _ _ _ H).
      exists sq, hi, lo. rewrite <- Hpart, xor_all_snoc. repeat split.
  - destruct Hinv as (sq & hi & lo & -> & -> & -> & Hlen & Hne).
    destruct (Z.eqb_spec (Z.lxor (xor_all ([27; sq; hi; lo; 14] ++ d)) b) 0)
      as [Hz|Hz]; cbn [negb]; intros H.
    + inversion H; subst out rest.
      exists junk, sq, hi, lo, b. split; [|split; [|split]].
      * rewrite <- !app_assoc. reflexivity.
      * exact Hlen.
      * rewrite app_assoc, xor_all_snoc. exact Hz.
      * exact Hne.
    + rewrite Hdrop.
      refine (IH _ _ _ _ (junk ++ _ ++ [b]) [] _ _ _ H). exact I.
Qed.

(** X2.  Whatever [recvMessage]'s automaton hands back was framed on the
    wire: the input is some bytes, then the start marker, one more byte,
    two size bytes giving the length of the payload, the token, the payload,
    a checksum byte that brings the XOR of the frame to 0, then the bytes
    left unread; and the payload is never empty. *)
Theorem decode_sound rx out rest :
  decode rx = (Ok out, rest) ->
  exists junk sq hi lo c,
    rx = junk ++ ([0x1B; sq; hi; lo; 0x0E] ++ out ++ [c]) ++ rest /\
    len out = Z.lor (Z.shiftl hi 8) lo /\
    xor_all ([0x1B; sq; hi; lo; 0x0E] ++ out ++ [c]) = 0 /\
    out <> [].
Proof.
  intros H. unfold decode in H.
  exact (recvLoop_sound rx Start 0 0 [] [] [] out rest I H).
Qed.

Lemma decode_sound_witness :
  exists junk sq hi lo c,
    [0x07; 0x1B; 0x01; 0x00; 0x01; 0x0E; 0x11; 0x04; 0x99]
      = junk ++ ([0x1B; sq; hi; lo; 0x0E] ++ [0x11] ++ [c]) ++ [0x99] /\
    len [0x11] = Z.lor (Z.shiftl hi 8) lo /\
    xor_all ([0x1B; sq; hi; lo; 0x0E] ++ [0x11] ++ [c]) = 0 /\
    [0x11] <> [].
Proof.
  apply (decode_sound [0x07; 0x1B; 0x01; 0x00; 0x01; 0x0E; 0x11; 0x04; 0x99]).
  reflexivity.
Defined.

(** ** The failures of [sendMessage] *)

(** X4.  [sendMessage] raises before it touches the port, connected or
    not, and leaves the instance as it was: struct.error for a sequence
    number or payload byte outside 0..255 or a payload longer than 65535
    bytes, and otherwise TypeError, out of the checksum loop. *)
Theorem sendMessage_fails_early data self :
  (~ is_byte (seq self) \/ Exists (fun c => ~ is_byte c) data \/
   65535 < len data ->
   sendMessage data self = (Raise StructError, self)) /\
  (is_byte (seq self) -> Forall is_byte data -> len data <= 65535 ->
   sendMessage data self = (Raise TypeError, self)).
Proof.
  split.
  - apply sendMessage_StructError.
  - apply sendMessage_TypeError.
Qed.

Lemma sendMessage_fails_early_witness :
  sendMessage [0x13; 256]
    (mkStk500v2 (Some (mkSerial "COM22" 115200 5 10000 [] [])) 3 (-1) false
       (mkChip 128 1024) [])
  = (Raise StructError,
     mkStk500v2 (Some (mkSerial "COM22" 115200 5 10000 [] [])) 3 (-1) false
       (mkChip 128 1024) []) /\
  sendMessage [0x01] (init (mkChip 128 1024))
  = (Raise TypeError, init (mkChip 128 1024)).
Proof.
  split.
  - apply (proj1 (sendMessage_fails_early [0x13; 256] _)).
    right. left. right. left. unfold is_byte. lia.
  - apply (proj2 (sendMessage_fails_early [0x01] (init (mkChip 128 1024)))).
    + unfold is_byte. simpl. lia.
    + repeat constructor; unfold is_byte; lia.
    + unfold len. simpl. lia.
Defined.

(** ** Invariants of the instance *)

Lemma keeps_unchanged {A} I (m : M A) :
  (forall self, snd (m self) = self) -> keeps I m.
Proof. intros H self HI. rewrite H. exact HI. Qed.

Lemma port_untouched_unchanged {A} (m : M A) :
  (forall self, snd (m self) = self) -> port_untouched m.
Proof.
  intros H self. rewrite H. split; [reflexivity|].
  exists []. rewrite app_nil_r. auto.
Qed.

Lemma sendISP_state data self : snd (sendISP data self) = self.
Proof.
  unfold sendISP.
  destruct (index data 0) as [d0|]; [|reflexivity].
  destruct (index data 1) as [d1|]; [|reflexivity].
  destruct (index data 2) as [d2|]; [|reflexivity].
  destruct (index data 3) as [d3|]; [|reflexivity].
  unfold bind.
  destruct (sendMessage_raises [0x1D; 4; 4; 0; d0; d1; d2; d3] self)
    as (e & -> & _).
  reflexivity.
Qed.

Lemma writeFlash_state flashData self : snd (writeFlash flashData self) = self.
Proof.
  destruct (writeFlash_raises flashData self) as (e & _ & -> & _).
  reflexivity.
Qed.

Lemma verifyFlash_state flashData self :
  snd (verifyFlash flashData self) = self.
Proof.
  destruct (verifyFlash_raises flashData self) as (e & _ & -> & _).
  reflexivity.
Qed.

Lemma seq_ok_transmit message : keeps seq_ok (transmit message).
Proof.
  intros self H. unfold seq_ok in *.
  pose proof (transmit_seq message self) as S.
  destruct (fst (transmit message self)) as [r|[[]| | | | |]];
    rewrite S; try exact H; rewrite <- land_0xFF; apply next_seq_byte.
Qed.

Lemma seq_ok_close : keeps seq_ok close.
Proof. intros self H. unfold close. destruct (serial self); exact H. Qed.

Lemma seq_ok_connect os_open name speed :
  keeps seq_ok (connect os_open name speed).
Proof.
  intros self H.
  destruct (os_open name speed) as [pending far_end| |] eqn:Hopen.
  - rewrite (connect_TypeError _ _ _ _ _ _ Hopen).
    unfold seq_ok, is_byte. simpl. lia.
  - rewrite (proj1 (connect_open_failure _ _ _ _) Hopen). exact H.
  - rewrite (proj2 (connect_open_failure _ _ _ _) Hopen). exact H.
Qed.

(** X6.  The sequence number is a byte from [__init__] on and stays one
    through every method, however the method ends: the header of the next
    frame can always be packed. *)
Theorem seq_stays_byte :
  (forall c, seq_ok (init c)) /\
  (forall data, keeps seq_ok (sendMessage data)) /\
  (forall data, keeps seq_ok (sendISP data)) /\
  (forall flashData, keeps seq_ok (writeFlash flashData)) /\
  (forall flashData, keeps seq_ok (verifyFlash flashData)) /\
  keeps seq_ok leaveISP /\ keeps seq_ok close /\
  (forall os_open name speed, keeps seq_ok (connect os_open name speed)).
Proof.
  split; [intros c; unfold seq_ok, is_byte; simpl; lia|].
  split; [intros data; apply keeps_unchanged, sendMessage_state|].
  split; [intros data; apply keeps_unchanged, sendISP_state|].
  split; [intros flashData; apply keeps_unchanged, writeFlash_state|].
  split; [intros flashData; apply keeps_unchanged, verifyFlash_state|].
  split; [apply keeps_unchanged, leaveISP_state|].
  split; [exact seq_ok_close|].
  exact seq_ok_connect.
Qed.

Lemma seq_stays_byte_witness :
  seq_ok (snd (writeFlash [1; 2; 3]
                 (mkStk500v2 (Some (mkSerial "COM22" 115200 5 10000 [] []))
                    255 (-1) false (mkChip 128 1024) []))).
Proof.
  apply (proj1 (proj2 (proj2 (proj2 seq_stays_byte)))).
  unfold seq_ok, is_byte. simpl. lia.
Defined.

(** X7.  [sendMessage], [sendISP], [writeFlash] and [verifyFlash] never
    open, close or reconfigure the port, however they end: an instance is
    connected after the call exactly if it was before, to the same port with
    the same speed and timeouts, and the only effects of the call are writes
    and progress reports.  In particular a transfer that fails half way
    leaves the connection open. *)
Theorem data_path_keeps_port :
  (forall data, port_untouched (sendMessage data)) /\
  (forall data, port_untouched (sendISP data)) /\
  (forall flashData, port_untouched (writeFlash flashData)) /\
  (forall flashData, port_untouched (verifyFlash flashData)).
Proof.
  split; [|split; [|split]].
  - intros data. apply port_untouched_unchanged, sendMessage_state.
  - intros data. apply port_untouched_unchanged, sendISP_state.
  - intros flashData. apply port_untouched_unchanged, writeFlash_state.
  - intros flashData. apply port_untouched_unchanged, verifyFlash_state.
Qed.

(** ** Connecting *)

(** X13.  If the port cannot be opened, [connect] raises "Failed to open
    serial port" for a SerialException and "Unexpected error while
    connecting to serial port:<port>..." for anything else; the instance
    then holds no port (a port held before has been closed), nothing has
    been written and the sequence number is as it was. *)
Theorem connect_open_fails os_open name speed self :
  (os_open name speed = OpenSerialException ->
   exists self',
     connect os_open name speed self
       = (Raise (IspErr FailedToOpenSerialPort), self') /\
     serial self' = None /\ seq self' = seq self /\
     trace self' = trace self ++ closing self) /\
  (os_open name speed = OpenOtherException ->
   exists self',
     connect os_open name speed self
       = (Raise (IspErr (UnexpectedErrorWhileConnecting name)), self') /\
     serial self' = None /\ seq self' = seq self /\
     trace self' = trace self ++ closing self).
Proof.
  split; intros Hopen; exists (after_close self).
  - rewrite (proj1 (connect_open_failure _ _ _ _) Hopen). auto.
  - rewrite (proj2 (connect_open_failure _ _ _ _) Hopen). auto.
Qed.

Lemma connect_open_fails_witness :
  exists self',
    connect (fun _ _ => OpenSerialException) "COM3" 115200
      (mkStk500v2 (Some (mkSerial "COM22" 115200 5 10000 [] []))
         7 (-1) false (mkChip 128 1024) [])
    = (Raise (IspErr FailedToOpenSerialPort), self') /\
    serial self' = None /\ seq self' = 7 /\
    trace self' = [] ++ [EvClose "COM22"%string].
Proof.
  apply (proj1 (connect_open_fails (fun _ _ => OpenSerialException)
                  "COM3"%string 115200
                  (mkStk500v2 (Some (mkSerial "COM22" 115200 5 10000 [] []))
                     7 (-1) false (mkChip 128 1024) []))).
  reflexivity.
Defined.

(** X14.  [connect] makes a fresh start: the bytes that were pending on the
    port when it was opened are flushed and the sequence number left by
    earlier use is overwritten, so neither has any influence on the outcome
    of the handshake or on the instance afterwards. *)
Theorem connect_fresh_start os1 os2 name speed self v pending1 pending2 far_end :
  os1 name speed = Opened pending1 far_end ->
  os2 name speed = Opened pending2 far_end ->
  connect os1 name speed self = connect os2 name speed self /\
  connect os1 name speed (set_seq v self) = connect os1 name speed self.
Proof.
  intros H1 H2.
  rewrite (connect_opened os1 name speed self pending1 far_end H1).
  rewrite (connect_opened os2 name speed self pending2 far_end H2).
  rewrite (connect_opened os1 name speed (set_seq v self) pending1 far_end H1).
  split; [reflexivity|]. f_equal.
Qed.

Lemma connect_fresh_start_witness :
  connect
    (fun _ _ => Opened [0x1B; 0x05; 0x00]
                  [Reply (frame 1 [0x01; 0x00]); Reply (frame 2 [0x10; 0x00])])
    "COM22" 115200 (init (mkChip 128 1024))
  = connect
      (fun _ _ => Opened []
                    [Reply (frame 1 [0x01; 0x00]); Reply (frame 2 [0x10; 0x00])])
      "COM22" 115200 (init (mkChip 128 1024)).
Proof.
  apply (proj1 (connect_fresh_start
                  (fun _ _ => Opened [0x1B; 0x05; 0x00]
                                [Reply (frame 1 [0x01; 0x00]);
                                 Reply (frame 2 [0x10; 0x00])])
                  (fun _ _ => Opened []
                                [Reply (frame 1 [0x01; 0x00]);
                                 Reply (frame 2 [0x10; 0x00])])
                  "COM22"%string 115200
                  (init (mkChip 128 1024)) 0 [0x1B; 0x05; 0x00] []
                  [Reply (frame 1 [0x01; 0x00]); Reply (frame 2 [0x10; 0x00])]
                  eq_refl eq_refl)).
Defined.

(** ** The SPI pass-through *)

(** X17.  [sendISP] needs four bytes: given fewer it raises IndexError
    before [sendMessage] is called.  Given four (what follows them is
    ignored) it ends in the exception of [sendMessage]: TypeError when the
    four bytes and the sequence number are in 0..255, struct.error when one
    of the four is not; in every case the instance is as it was and nothing
    is written. *)
Theorem sendISP_contract :
  (forall data self,
     (List.length data < 4)%nat ->
     sendISP data self = (Raise IndexError, self)) /\
  (forall d0 d1 d2 d3 extra self,
     is_byte (seq self) -> Forall is_byte [d0; d1; d2; d3] ->
     sendISP (d0 :: d1 :: d2 :: d3 :: extra) self = (Raise TypeError, self)) /\
  (forall d0 d1 d2 d3 extra self,
     Exists (fun c => ~ is_byte c) [d0; d1; d2; d3] ->
     sendISP (d0 :: d1 :: d2 :: d3 :: extra) self
     = (Raise StructError, self)).
Proof.
  split; [|split].
  - intros data self Hlen. unfold sendISP.
    destruct data as [|d0 [|d1 [|d2 [|d3 extra]]]]; try reflexivity.
    simpl in Hlen. lia.
  - intros d0 d1 d2 d3 extra self Hs Hd.
    assert (Hb : Forall is_byte [0x1D; 4; 4; 0; d0; d1; d2; d3]).
    { repeat (constructor; [unfold is_byte; lia|]). exact Hd. }
    assert (Hl : len [0x1D; 4; 4; 0; d0; d1; d2; d3] <= 65535)
      by (unfold len; simpl; lia).
    unfold sendISP.
    change (index (d0 :: d1 :: d2 :: d3 :: extra) 0) with (Some d0).
    change (index (d0 :: d1 :: d2 :: d3 :: extra) 1) with (Some d1).
    change (index (d0 :: d1 :: d2 :: d3 :: extra) 2) with (Some d2).
    change (index (d0 :: d1 :: d2 :: d3 :: extra) 3) with (Some d3).
    cbv iota. apply bind_Raise. apply sendMessage_TypeError; assumption.
  - intros d0 d1 d2 d3 extra self Hd.
    unfold sendISP.
    change (index (d0 :: d1 :: d2 :: d3 :: extra) 0) with (Some d0).
    change (index (d0 :: d1 :: d2 :: d3 :: extra) 1) with (Some d1).
    change (index (d0 :: d1 :: d2 :: d3 :: extra) 2) with (Some d2).
    change (index (d0 :: d1 :: d2 :: d3 :: extra) 3) with (Some d3).
    cbv iota. apply bind_Raise. apply sendMessage_StructError.
    right. left. do 4 apply Exists_cons_tl. exact Hd.
Qed.

Lemma sendISP_contract_witness :
  sendISP [0x30; 0x00; 0x00]
    (mkStk500v2 (Some (mkSerial "COM22" 115200 5 10000 [] []))
       3 (-1) false (mkChip 128 1024) [])
  = (Raise IndexError,
     mkStk500v2 (Some (mkSerial "COM22" 115200 5 10000 [] []))
       3 (-1) false (mkChip 128 1024) []) /\
  sendISP [0x30; 0x00; 0x00; 0x00; 0x77]
    (mkStk500v2
       (Some (mkSerial "COM22" 115200 5 10000 []
                [Reply (frame 3 [0x1D; 0x00; 0x00; 0x30; 0x00; 0x1E; 0x00])]))
       3 (-1) false (mkChip 128 1024) [])
  = (Raise TypeError,
     mkStk500v2
       (Some (mkSerial "COM22" 115200 5 10000 []
                [Reply (frame 3 [0x1D; 0x00; 0x00; 0x30; 0x00; 0x1E; 0x00])]))
       3 (-1) false (mkChip 128 1024) []) /\
  sendISP [0x30; 0x00; 0x100; 0x00] (init (mkChip 128 1024))
  = (Raise StructError, init (mkChip 128 1024)).
Proof.
  split; [|split].
  - apply (proj1 sendISP_contract). simpl. lia.
  - apply (proj1 (proj2 sendISP_contract)).
    + unfold is_byte. simpl. lia.
    + repeat constructor; unfold is_byte; lia.
  - apply (proj2 (proj2 sendISP_contract) 0x30 0x00 0x100 0x00 []).
    do 2 apply Exists_cons_tl. apply Exists_cons_hd. unfold is_byte. lia.
Defined.

(** ** The callers and the helper modules *)

(** X18.  [runProgrammer] never gets to read the hex file or to program:
    it ends with the exception that [connect] raises on the new instance,
    whatever the file and the programming method.  When the port could be
    opened, that exception is the TypeError of the first [sendMessage] and
    the port is left open, [close] not being reached; nothing has been
    written to it. *)
Theorem runProgrammer_contract os_open readHex programChip c name filename :
  (exists e st,
     connect os_open name 115200 (init c) = (Raise e, st) /\
     runProgrammer os_open readHex programChip c name filename
     = (Raise e, st)) /\
  (forall pending far_end,
     os_open name 115200 = Opened pending far_end ->
     runProgrammer os_open readHex programChip c name filename
     = (Raise TypeError, after_reset name 115200 far_end (init c)) /\
     isConnected (after_reset name 115200 far_end (init c)) = true /\
     writes (trace (after_reset name 115200 far_end (init c))) = []).
Proof.
  split.
  - destruct (connect os_open name 115200 (init c)) as [[[]|e] st] eqn:E.
    + exfalso. apply (connect_never_Ok os_open name 115200 (init c)).
      rewrite E. reflexivity.
    + exists e, st. split; [reflexivity|].
      unfold runProgrammer. apply bind_Raise. exact E.
  - intros pending far_end Hopen. split; [|split; reflexivity].
    unfold runProgrammer. apply bind_Raise.
    exact (connect_TypeError _ _ _ _ _ _ Hopen).
Qed.

Lemma runProgrammer_contract_witness :
  runProgrammer
    (fun _ _ => Opened []
                  [Reply (frame 1 [0x01; 0x00]); Reply (frame 2 [0x10; 0x00])])
    (fun _ => Ok [1; 2; 3]) (fun _ => ret tt)
    (mkChip 128 1024) "COM22" "firmware.hex"
  = (Raise TypeError,
     after_reset "COM22" 115200
       [Reply (frame 1 [0x01; 0x00]); Reply (frame 2 [0x10; 0x00])]
       (init (mkChip 128 1024))).
Proof.
  apply (proj1 (proj2
           (runProgrammer_contract
              (fun _ _ => Opened []
                            [Reply (frame 1 [0x01; 0x00]);
                             Reply (frame 2 [0x10; 0x00])])
              (fun _ => Ok [1; 2; 3]) (fun _ => ret tt)
              (mkChip 128 1024) "COM22"%string "firmware.hex"%string)
           []
           [Reply (frame 1 [0x01; 0x00]); Reply (frame 2 [0x10; 0x00])]
           eq_refl)).
Defined.

Lemma nth_error_skipn {A} (l : list A) : forall i x,
  nth_error l i = Some x -> skipn i l = x :: skipn (S i) l.
Proof.
  induction l as [|y l IH]; intros [|i] x H; simpl in *; try discriminate.
  - inversion H. reflexivity.
  - apply IH. exact H.
Qed.

Lemma portList_loop_spec key : forall fuel i ret,
  (List.length key - i < fuel)%nat ->
  portList_loop fuel key i ret
  = Some (ret ++ map snd
            (filter (fun values => contains "USBSER" (fst values))
               (skipn i key))).
Proof.
  induction fuel as [|fuel IH]; intros i ret Hf; [lia|].
  cbn [portList_loop].
  destruct (nth_error key i) as [values|] eqn:E.
  - assert (Hi : (i < List.length key)%nat)
      by (apply nth_error_Some; congruence).
    rewrite IH by lia. rewrite (nth_error_skipn key i values E).
    cbn [filter]. destruct (contains "USBSER" (fst values)).
    + cbn [map]. rewrite <- app_assoc. reflexivity.
    + reflexivity.
  - apply nth_error_None in E. rewrite skipn_all2 by exact E.
    simpl. rewrite app_nil_r. reflexivity.
Qed.

(** X19.  [portList] ends after one pass over the values of the registry
    key and returns the data of exactly those values whose name contains
    USBSER, in the order of the key, repeated data included. *)
Theorem portList_filters key :
  portList key
  = Some (map snd
            (filter (fun values => contains "USBSER" (fst values)) key)).
Proof.
  unfold portList. rewrite portList_loop_spec by lia. reflexivity.
Qed.

Example portList_usbser :
  portList [("\Device\Serial0", "COM1"); ("\Device\USBSER000", "COM7");
            ("\Device\VCP0", "COM4"); ("\Device\USBSER001", "COM9")]%string
  = Some ["COM7"; "COM9"]%string.
Proof. reflexivity. Qed.

(** X20.  Without a response from the version server [isLatest] answers
    true, whatever is installed and even when the environment variable is
    not set.  With a response, the first call reads it to the end; a second
    call then compares the installed version with the empty string, and so
    answers false for every version that is not empty, whatever the server
    had sent. *)
Theorem isLatest_once utf8 :
  (forall release_version,
     isLatest utf8 None release_version = (Answer true, None)) /\
  (utf8 [] = Some EmptyString ->
   forall body release_version installed,
     installed <> EmptyString ->
     fst (isLatest utf8
            (snd (isLatest utf8 (Some body) release_version))
            (Some installed))
     = Answer false).
Proof.
  split; [reflexivity|].
  intros Hempty body release_version installed Hne.
  assert (Hleft : snd (isLatest utf8 (Some body) release_version) = Some []).
  { unfold isLatest. destruct (utf8 body); [|reflexivity].
    destruct release_version; reflexivity. }
  rewrite Hleft. unfold isLatest. rewrite Hempty. simpl.
  destruct installed; [contradiction | reflexivity].
Qed.

Lemma isLatest_once_witness :
  fst (isLatest (fun _ => Some EmptyString)
         (snd (isLatest (fun _ => Some EmptyString) (Some [0x32; 0x2E; 0x30])
                 (Some "2.0"%string)))
         (Some "2.0"%string))
  = Answer false.
Proof.
  apply (proj2 (isLatest_once (fun _ => Some EmptyString)) eq_refl).
  discriminate.
Defined.

(** X21.  [hasExplorer] says yes on every platform, but [openExplorer] and
    [openExplorerPath] start a process only on win32, cygwin, darwin and
    the platforms whose name begins with linux: anywhere else they do
    nothing.  On no platform do they start more than one. *)
Theorem explorer_platforms split_head platform filename :
  hasExplorer = true /\
  (List.length (openExplorer split_head platform filename) <= 1)%nat /\
  (List.length (openExplorerPath platform filename) <= 1)%nat /\
  (platform <> "win32"%string -> platform <> "cygwin"%string ->
   platform <> "darwin"%string -> String.prefix "linux" platform = false ->
   openExplorer split_head platform filename = [] /\
   openExplorerPath platform filename = []).
Proof.
  split; [reflexivity|].
  unfold openExplorer, openExplorerPath.
  destruct (String.eqb_spec platform "win32") as [->|Hw].
  { split; [simpl; lia|]. split; [simpl; lia|]. intros H. contradiction. }
  destruct (String.eqb_spec platform "cygwin") as [->|Hc].
  { split; [simpl; lia|]. split; [simpl; lia|]. intros _ H. contradiction. }
  destruct (String.eqb_spec platform "darwin") as [->|Hd].
  { split; [simpl; lia|]. split; [simpl; lia|]. intros _ _ H. contradiction. }
  cbn [orb app].
  destruct (String.prefix "linux" platform).
  - split; [simpl; lia|]. split; [simpl; lia|].
    intros _ _ _ H. discriminate.
  - split; [simpl; lia|]. split; [simpl; lia|].
    intros _ _ _ _. split; reflexivity.
Qed.

Lemma explorer_platforms_witness :
  openExplorer (fun s => s) "freebsd13" "/home/user/part.gcode" = [] /\
  openExplorerPath "freebsd13" "/home/user/part.gcode" = [].
Proof.
  apply (proj2 (proj2 (proj2
           (explorer_platforms (fun s => s) "freebsd13"%string
              "/home/user/part.gcode"%string))));
    first [discriminate | reflexivity].
Defined.
